(** * wowpdf: the request handlers of src/main.py, embedded and verified.

    The program is a FastAPI application.  Every handler stages the upload
    in [UPLOAD_DIR], calls into pypdf / PIL / reportlab, writes a result into
    [OUTPUT_DIR], schedules its deletion with [cleanup_file] and answers with
    a [FileResponse].

    The embedding is shallow.  A handler is a function in the monad [Py]:
    explicit passing of a [world] (file system, pending asyncio timers,
    clock, number of uuids drawn) together with a Python exception channel.
    The external libraries are a type class [Codec] of operations that may
    raise; the operating system is a type class [Host]. *)

From Stdlib Require Import ZArith Ascii String List DecimalString.
From stdpp Require Import base decidable option list gmap strings.

Local Open Scope string_scope.
Local Open Scope Z_scope.

(** ** Python strings

    A [str] is modelled as a Rocq [string]: a sequence of code points
    0..255, one [ascii] per code point. *)

Module PyStr.

Definition code (c : ascii) : N := N_of_ascii c.

(** [str.lower] on one code point of the Latin-1 range: A-Z, and
    U+00C0..U+00DE without the multiplication sign U+00D7. *)
Definition lower_char (c : ascii) : ascii :=
  let n := code c in
  if ((65 <=? n) && (n <=? 90))%N then ascii_of_N (n + 32)
  else if ((192 <=? n) && (n <=? 222) && negb (n =? 215))%N then ascii_of_N (n + 32)
  else c.

Fixpoint lower (s : string) : string :=
  match s with
  | EmptyString => EmptyString
  | String c s' => String (lower_char c) (lower s')
  end.

(** [s.endswith(suffix)] *)
Definition endswith (s suffix : string) : bool :=
  let n := String.length s in
  let m := String.length suffix in
  (m <=? n)%nat && String.eqb (substring (n - m) m s) suffix.

(** [needle in hay] *)
Fixpoint contains (needle hay : string) : bool :=
  String.prefix needle hay
  || match hay with
     | EmptyString => false
     | String _ hay' => contains needle hay'
     end.

(** [s.split(sep)] for a one-character separator: never the empty list. *)
Fixpoint split (sep : ascii) (s : string) : list string :=
  match s with
  | EmptyString => [EmptyString]
  | String c s' =>
      if Ascii.eqb c sep then EmptyString :: split sep s'
      else match split sep s' with
           | h :: t => String c h :: t
           | [] => [String c EmptyString]
           end
  end.

(** The characters [int] strips: the ASCII white space of [Py_ISSPACE], and
    NEL and NBSP, which CPython first rewrites to a blank. *)
Definition is_space (c : ascii) : bool :=
  let n := code c in
  (((9 <=? n) && (n <=? 13)) || (n =? 32) || (n =? 133) || (n =? 160))%N.

Definition digit (c : ascii) : option Z :=
  let n := code c in
  if ((48 <=? n) && (n <=? 57))%N then Some (Z.of_N n - 48) else None.

Fixpoint lstrip (l : list ascii) : list ascii :=
  match l with
  | c :: l' => if is_space c then lstrip l' else l
  | [] => []
  end.

Definition strip (l : list ascii) : list ascii := rev (lstrip (rev (lstrip l))).

(** Decimal digits, single underscores allowed between two digits. *)
Fixpoint digits (acc : Z) (after_digit : bool) (l : list ascii) : option Z :=
  match l with
  | [] => if after_digit then Some acc else None
  | c :: l' =>
      match digit c with
      | Some d => digits (10 * acc + d) true l'
      | None =>
          if Ascii.eqb c "_" && after_digit then digits acc false l' else None
      end
  end.

(** [int(s)]: [None] stands for [ValueError].  The interpreter's limit on
    the number of digits ([sys.set_int_max_str_digits]) is not modelled. *)
Definition int (s : string) : option Z :=
  match strip (list_ascii_of_string s) with
  | c :: l =>
      if Ascii.eqb c "+" then digits 0 false l
      else if Ascii.eqb c "-" then Z.opp <$> digits 0 false l
      else digits 0 false (c :: l)
  | [] => None
  end.

(** [str(n)] for an [int]. *)
Definition str (n : Z) : string := NilZero.string_of_int (Z.to_int n).

(** [s[:n]] *)
Definition take (n : nat) (s : string) : string := substring 0 n s.

Definition backslash : ascii := "092"%char.
Definition double_quote : ascii := "034"%char.
Definition single_quote : ascii := "039"%char.

(** [str.isprintable] on one code point of the Latin-1 range: the control
    characters, NBSP and the soft hyphen are not printable. *)
Definition printable (c : ascii) : bool :=
  let n := code c in
  negb ((n <? 32) || (n =? 127) || ((128 <=? n) && (n <=? 160)) || (n =? 173))%N.

Definition hex_digit (n : N) : ascii :=
  if (n <? 10)%N then ascii_of_N (48 + n) else ascii_of_N (87 + n).

(** One character of [repr(s)], inside the quotes [quote]. *)
Definition escape (quote c : ascii) : string :=
  let n := code c in
  if Ascii.eqb c quote || Ascii.eqb c backslash then String backslash (String c "")
  else if (n =? 9)%N then String backslash "t"
  else if (n =? 10)%N then String backslash "n"
  else if (n =? 13)%N then String backslash "r"
  else if printable c then String c ""
  else String backslash
         (String "x" (String (hex_digit (n / 16)) (String (hex_digit (n mod 16)) ""))).

Fixpoint escape_all (quote : ascii) (s : string) : string :=
  match s with
  | EmptyString => EmptyString
  | String c s' => escape quote c ++ escape_all quote s'
  end.

(** [repr(s)]: double quotes when [s] has a single quote and no double
    quote, single quotes otherwise. *)
Definition repr (s : string) : string :=
  let quote :=
    if contains (String single_quote "") s && negb (contains (String double_quote "") s)
    then double_quote else single_quote in
  String quote (escape_all quote s ++ String quote "").

End PyStr.

(** [range(a, b)] as a list. *)
Definition range (a b : Z) : list Z :=
  map (fun i => a + Z.of_nat i) (seq 0 (Z.to_nat (b - a))).

(** ** Exceptions *)

(** What a handler can raise: FastAPI's [HTTPException], or any other
    [Exception], kept as its class name and its [str(e)]. *)
Inductive exn : Type :=
  | HTTPException (status_code : Z) (detail : string)
  | Exception (cls : string) (msg : string).

(** [str(e)].  Starlette's [HTTPException.__str__] prints status and detail. *)
Definition exn_str (e : exn) : string :=
  match e with
  | HTTPException s d => PyStr.str s ++ ": " ++ d
  | Exception _ m => m
  end.

Inductive outcome (A : Type) : Type :=
  | Return (a : A)
  | Raise (e : exn).
Arguments Return {A} a.
Arguments Raise {A} e.

(** A call into pypdf, PIL or reportlab: a value, or an exception of the
    library (never an [HTTPException]). *)
Inductive result (A : Type) : Type :=
  | Ok (a : A)
  | Fail (cls : string) (msg : string).
Arguments Ok {A} a.
Arguments Fail {A} cls msg.

#[global] Instance result_ret : MRet result := fun A a => Ok a.

#[global] Instance result_bind : MBind result := fun A B k r =>
  match r with
  | Ok a => k a
  | Fail c m => Fail c m
  end.

Definition outcome_of {A : Type} (r : result A) : outcome A :=
  match r with
  | Ok a => Return a
  | Fail c m => Raise (Exception c m)
  end.

(** ** The world a handler runs in *)

Inductive zone : Set := UPLOAD_DIR | OUTPUT_DIR.

#[global] Instance zone_eq_dec : EqDecision zone.
Proof. solve_decision. Defined.

#[global] Instance zone_countable : Countable zone.
Proof.
  refine (inj_countable' (fun z => match z with UPLOAD_DIR => false | OUTPUT_DIR => true end)
            (fun b : bool => if b then OUTPUT_DIR else UPLOAD_DIR) _).
  by intros [].
Defined.

(** [UPLOAD_DIR / name], [OUTPUT_DIR / name] *)
Definition path : Type := zone * string.

Definition bytes : Type := list Byte.byte.

Record world : Type := mkWorld {
  fs : gmap (zone * string) bytes;   (* the two directories *)
  timers : list (Z * path);          (* sleeping [delete_after_delay] tasks: wake-up time, file *)
  clock : Z;                         (* the event loop's time, in seconds *)
  drawn : nat                        (* how many uuids were drawn so far *)
}.

Definition with_fs (f : gmap (zone * string) bytes) (w : world) : world :=
  mkWorld f (timers w) (clock w) (drawn w).

Definition Py (A : Type) : Type := world -> outcome A * world.

#[global] Instance Py_ret : MRet Py := fun A a w => (Return a, w).

#[global] Instance Py_bind : MBind Py := fun A B k m w =>
  match m w with
  | (Return a, w') => k a w'
  | (Raise e, w') => (Raise e, w')
  end.

Definition raise {A : Type} (e : exn) : Py A := fun w => (Raise e, w).

(** A library call made by a handler. *)
Definition lib {A : Type} (r : result A) : Py A := fun w => (outcome_of r, w).

(** [try: body  except Exception as e: handler(e)] *)
Definition try_except {A : Type} (body : Py A) (handler : exn -> Py A) : Py A :=
  fun w =>
    match body w with
    | (Return a, w') => (Return a, w')
    | (Raise e, w') => handler e w'
    end.

(** [for x in xs: body], threading an accumulator. *)
Fixpoint for_each {A B : Type} (xs : list A) (acc : B) (body : B -> A -> Py B) : Py B :=
  match xs with
  | [] => mret acc
  | x :: xs' => acc' ← body acc x; for_each xs' acc' body
  end.

(** ** The operating system *)

Class Host : Type := {
  (* the 32 hexadecimal digits of the n-th [uuid.uuid4()] of the process *)
  uuid_source : nat -> string;
  (* whether [open(p, "wb")] succeeds *)
  can_open : path -> bool;
  (* [Path(name).suffix] *)
  path_suffix : string -> string;
  (* [f"{(1 - compressed_size/original_size) * 100:.1f}%"], computed in
     floating point, given [compressed_size] and [original_size] *)
  ratio_text : Z -> Z -> string
}.

(** ** The external libraries (pypdf, PIL, reportlab) *)

Inductive PasswordType : Set := NOT_DECRYPTED | USER_PASSWORD | OWNER_PASSWORD.

(** A [PdfWriter]: the pages handed to [add_page], and the password given
    to [encrypt], if any. *)
Record PdfWriter (page : Type) : Type := mkWriter {
  w_pages : list page;
  w_password : option string
}.
Arguments mkWriter {page} w_pages w_password.
Arguments w_pages {page} _.
Arguments w_password {page} _.

(** [Image.new(mode, size, color=...)] *)
Record Image : Type := mkImage {
  img_mode : string;
  img_size : Z * Z;
  img_color : string
}.

(** What a handler draws on a reportlab canvas of page size [letter] before
    [c.save()]: font, fill colour, and one centred string. *)
Record Overlay : Type := mkOverlay {
  ov_font : string * Z;
  ov_fill : Z * Z * Z;
  ov_x : Z;
  ov_y : Z;
  ov_text : string
}.

Class Codec : Type := {
  page : Type;
  reader : Type;
  merger : Type;
  picture : Type;             (* a PIL image read from a file *)
  pyfloat : Type;             (* a [float], only handed on to reportlab *)
  (* [PdfReader(stream)] *)
  PdfReader : bytes -> result reader;
  (* [reader.pages], fully resolved *)
  reader_pages : reader -> result (list page);
  (* [reader.is_encrypted] *)
  is_encrypted : reader -> bool;
  (* [reader.decrypt(password)]: the verdict and the reader afterwards *)
  reader_decrypt : reader -> string -> result (PasswordType * reader);
  (* [writer.write(stream)] *)
  PdfWriter_write : PdfWriter page -> result bytes;
  (* [PdfMerger()], [merger.append(file)], [merger.write(file)] *)
  PdfMerger_new : merger;
  PdfMerger_append : merger -> bytes -> result merger;
  PdfMerger_write : merger -> result bytes;
  (* [page.rotate(angle)], [page.merge_page(other)] *)
  page_rotate : page -> Z -> result page;
  page_merge_page : page -> page -> result page;
  (* [c.save()] followed by [PdfReader(buffer).pages[0]] *)
  canvas_page : Overlay -> result page;
  (* [img.save(stream, format.upper())], given [format] *)
  Image_save : Image -> string -> result bytes;
  (* [reader.metadata]: [None], or the document information as a lookup *)
  reader_metadata : reader -> result (option (string -> option string));
  (* [page.compress_content_streams()], [page.extract_text()] *)
  page_compress : page -> result page;
  page_extract_text : page -> result string;
  (* the watermark canvas of [add_watermark], saved and read back:
     [watermark_pdf.pages[0]], given [text] and [opacity] *)
  watermark_stamp : string -> pyfloat -> result page;
  (* [Image.open(file)], [img.mode], [img.convert(mode)] *)
  Image_open : bytes -> result picture;
  picture_mode : picture -> string;
  picture_convert : picture -> string -> result picture;
  (* [first.save(stream, "PDF", save_all=..., append_images=others)] *)
  picture_save_pdf : picture -> list picture -> result bytes
}.

(** reportlab's [letter], in points.  The library has the floats 612.0 and
    792.0; every coordinate the handlers compute from them is integral and
    is kept as an integer here. *)
Definition letter : Z * Z := (612, 792).

(** ** Requests and responses *)

Record UploadFile : Type := mkUpload {
  filename : string;
  content : bytes      (* what [await file.read()] returns *)
}.

(** What a [JSONResponse] carries. *)
Unset Elimination Schemes.
Inductive json : Type :=
  | JBool (b : bool)
  | JInt (n : Z)
  | JStr (s : string)
  | JList (items : list json)
  | JDict (fields : list (string * json)).
Set Elimination Schemes.

Inductive Response : Type :=
  | FileResponse (file : path) (download_name : string) (media_type : string)
  | FileResponse_headers (file : path) (download_name : string) (media_type : string)
      (headers : list (string * string))
  | JSONResponse (body : json).

(** The status line the framework sends for a handler's outcome. *)
Definition status_of {A : Type} (o : outcome A) : Z :=
  match o with
  | Return _ => 200
  | Raise (HTTPException s _) => s
  | Raise (Exception _ _) => 500
  end.

Section Handlers.

Context `{!Host, !Codec}.

(** *** Primitives *)

Definition uuid4 : Py string := fun w =>
  (Return (uuid_source (drawn w)),
   mkWorld (fs w) (timers w) (clock w) (S (drawn w))).

(** [str(u)]: groups of 8-4-4-4-12 digits. *)
Definition uuid_str (u : string) : string :=
  substring 0 8 u ++ "-" ++ substring 8 4 u ++ "-" ++ substring 12 4 u
  ++ "-" ++ substring 16 4 u ++ "-" ++ substring 20 12 u.

(** [open(p, "wb")]: the file is created or truncated. *)
Definition open_wb (p : path) : Py unit := fun w =>
  if can_open p then (Return (), with_fs (<[p := []]> (fs w)) w)
  else (Raise (Exception "OSError" "cannot open file for writing"), w).

(** [buffer.write(data)] on the file just opened, and closing it. *)
Definition write_bytes (p : path) (data : bytes) : Py unit := fun w =>
  (Return (), with_fs (<[p := data]> (fs w)) w).

(** Reading the file at [p], as the libraries do when handed a file name. *)
Definition read_bytes (p : path) : Py bytes := fun w =>
  match fs w !! p with
  | Some b => (Return b, w)
  | None => (Raise (Exception "FileNotFoundError" "No such file or directory"), w)
  end.

(** [p.exists()] *)
Definition exists_ (p : path) : Py bool := fun w =>
  (Return (bool_decide (is_Some (fs w !! p))), w).

(** [p.unlink()] *)
Definition unlink (p : path) : Py unit := fun w =>
  match fs w !! p with
  | Some _ => (Return (), with_fs (delete p (fs w)) w)
  | None => (Raise (Exception "FileNotFoundError" "No such file or directory"), w)
  end.

(** [with open(temp_path, "wb") as buffer: buffer.write(await file.read())] *)
Definition stage (temp_path : path) (file : UploadFile) : Py unit :=
  open_wb temp_path;; write_bytes temp_path (content file).

(** [with open(output_path, "wb") as output_file: writer.write(output_file)];
    when the library raises, the file stays as [open] left it. *)
Definition write_pdf (output_path : path) (writer : PdfWriter page) : Py unit :=
  open_wb output_path;;
  data ← lib (PdfWriter_write writer);
  write_bytes output_path data.

(** [PdfReader(str(temp_path))] *)
Definition open_reader (temp_path : path) : Py reader :=
  data ← read_bytes temp_path; lib (PdfReader data).

(** *** The retention scheduler *)

(** The body of [delete_after_delay] once [asyncio.sleep(delay)] is over. *)
Definition delete_after_delay (filepath : path) : Py unit :=
  there ← exists_ filepath;
  if there : bool then unlink filepath else mret ().

(** [cleanup_file(filepath, delay)]: [asyncio.create_task] registers the
    coroutine; it sleeps until [delay] seconds from now. *)
Definition cleanup_file (filepath : path) (delay : Z) : Py unit := fun w =>
  (Return (),
   mkWorld (fs w) (timers w ++ [(clock w + Z.max 0 delay, filepath)])%list (clock w) (drawn w)).

(** The default of [cleanup_file]'s [delay] parameter; no caller passes another. *)
Definition default_delay : Z := 300.

(** Running the woken tasks, in order; the outcome of each is kept, since a
    task that raises is only reported by the event loop. *)
Fixpoint run_tasks (ts : list (Z * path)) (w : world) : list (outcome unit) * world :=
  match ts with
  | [] => ([], w)
  | (_, p) :: ts' =>
      let '(o, w1) := delete_after_delay p w in
      let '(os, w2) := run_tasks ts' w1 in
      (o :: os, w2)
  end.

Definition is_due (now : Z) (t : Z * path) : bool := Z.leb t.1 now.

(** The event loop after [dt] more seconds: every sleeper whose time has
    come is resumed. *)
Definition elapse (dt : nat) (w : world) : list (outcome unit) * world :=
  let now := clock w + Z.of_nat dt in
  let due := filter (fun t => is_due now t = true) (timers w) in
  let rest := filter (fun t => is_due now t = false) (timers w) in
  run_tasks due (mkWorld (fs w) rest now (drawn w)).

(** What else happens between a registration and its time: time passes,
    files disappear (somebody removes them), other requests register and
    write other artifacts.  Only the woken tasks report outcomes. *)
Inductive event : Type :=
  | Elapse (dt : nat)
  | Remove (p : path)
  | Register (p : path) (delay : Z)
  | Persist (p : path) (data : bytes).

Definition step (ev : event) (w : world) : list (outcome unit) * world :=
  match ev with
  | Elapse dt => elapse dt w
  | Remove p => ([], with_fs (delete p (fs w)) w)
  | Register p d => ([], (cleanup_file p d w).2)
  | Persist p data => ([], with_fs (<[p := data]> (fs w)) w)
  end.

Fixpoint run (evs : list event) (w : world) : list (outcome unit) * world :=
  match evs with
  | [] => ([], w)
  | ev :: evs' =>
      let '(os1, w1) := step ev w in
      let '(os2, w2) := run evs' w1 in
      ((os1 ++ os2)%list, w2)
  end.

(** *** What the handlers share *)

(** [file.filename.lower().endswith('.pdf')] *)
Definition is_pdf (name : string) : bool :=
  PyStr.endswith (PyStr.lower name) ".pdf".

(** [except Exception as e: raise HTTPException(status_code=500, detail=str(e))] *)
Definition internal_error {A : Type} (e : exn) : Py A :=
  raise (HTTPException 500 (exn_str e)).

(** [UPLOAD_DIR / f"{uuid.uuid4()}_{file.filename}"] *)
Definition temp_path_of (u : string) (file : UploadFile) : path :=
  (UPLOAD_DIR, uuid_str u ++ "_" ++ filename file).

(** [int(s)] as a library call.  The message is CPython's
    ["invalid literal for int() with base %d: %.200R"]: the [repr] of the
    argument, cut after 200 characters. *)
Definition int_ (s : string) : result Z :=
  match PyStr.int s with
  | Some n => Ok n
  | None =>
      Fail "ValueError"
        ("invalid literal for int() with base 10: " ++ PyStr.take 200 (PyStr.repr s))
  end.

(** [start, end = map(int, part.split('-'))]: the iterator is consumed one
    element at a time, and a third element is converted before the
    unpacking fails. *)
Definition unpack_range (part : string) : result (Z * Z) :=
  match PyStr.split "-" part with
  | [a; b] => start ← int_ a; end_ ← int_ b; Ok (start, end_)
  | a :: b :: c :: _ =>
      int_ a;; int_ b;; int_ c;;
      Fail "ValueError" "too many values to unpack (expected 2)"
  | [a] => int_ a;; Fail "ValueError" "not enough values to unpack (expected 2, got 1)"
  | [] => Fail "ValueError" "not enough values to unpack (expected 2, got 0)"
  end.

(** *** POST /api/merge *)

(** One turn of [for file in files]. *)
Definition merge_one (acc : merger * list path) (file : UploadFile)
  : Py (merger * list path) :=
  let '(m, temp_files) := acc in
  if negb (is_pdf (filename file)) then
    raise (HTTPException 400 ("File " ++ filename file ++ " is not a PDF"))
  else
    u ← uuid4;
    let temp_path := temp_path_of u file in
    stage temp_path file;;
    data ← read_bytes temp_path;
    m' ← lib (PdfMerger_append m data);
    mret (m', (temp_files ++ [temp_path])%list).

Definition merge_pdfs (files : list UploadFile) : Py Response :=
  if (length files <? 2)%nat then
    raise (HTTPException 400 "At least 2 PDF files required")
  else
    try_except
      ('(m, temp_files) ← for_each files (PdfMerger_new, []) merge_one;
       u ← uuid4;
       let output_filename := "merged_" ++ PyStr.take 8 u ++ ".pdf" in
       let output_path := (OUTPUT_DIR, output_filename) in
       data ← lib (PdfMerger_write m);
       open_wb output_path;;
       write_bytes output_path data;;
       for_each temp_files () (fun _ temp_file => unlink temp_file);;
       cleanup_file output_path default_delay;;
       mret (FileResponse output_path output_filename "application/pdf"))
      internal_error.

(** *** POST /api/split *)

(** One turn of [for part in pages.split(',')] of [split_pdf]. *)
Definition split_part (total_pages : Z) (page_nums : list Z) (part : string)
  : result (list Z) :=
  if PyStr.contains "-" part then
    '(start, end_) ← unpack_range part;
    Ok (page_nums ++ range (start - 1) (Z.min end_ total_pages))%list
  else
    n ← int_ part; Ok (page_nums ++ [n - 1])%list.

Fixpoint split_parts (total_pages : Z) (page_nums : list Z) (parts : list string)
  : result (list Z) :=
  match parts with
  | [] => Ok page_nums
  | part :: parts' =>
      page_nums' ← split_part total_pages page_nums part;
      split_parts total_pages page_nums' parts'
  end.

(** [page_nums] of [split_pdf]. *)
Definition split_page_nums (pages : string) (total_pages : Z) : result (list Z) :=
  match pages with
  | EmptyString => Ok (range 0 total_pages)
  | _ => split_parts total_pages [] (PyStr.split "," pages)
  end.

(** The test [0 <= page_num < total_pages]. *)
Definition valid_page (total_pages page_num : Z) : bool :=
  (0 <=? page_num) && (page_num <? total_pages).

(** One turn of [for i, page_num in enumerate(page_nums)]. *)
Definition split_one (pgs : list page) (output_files : list path) (page_num : Z)
  : Py (list path) :=
  if valid_page (Z.of_nat (length pgs)) page_num then
    match pgs !! Z.to_nat page_num with
    | Some pg =>
        u ← uuid4;
        let output_filename :=
          "page_" ++ PyStr.str (page_num + 1) ++ "_" ++ PyStr.take 6 u ++ ".pdf" in
        let output_path := (OUTPUT_DIR, output_filename) in
        write_pdf output_path (mkWriter [pg] None);;
        cleanup_file output_path default_delay;;
        mret (output_files ++ [output_path])%list
    | None => raise (Exception "IndexError" "sequence index out of range")
    end
  else mret output_files.

Definition split_pdf (file : UploadFile) (pages : string) : Py Response :=
  if negb (is_pdf (filename file)) then
    raise (HTTPException 400 "File must be a PDF")
  else
    try_except
      (u ← uuid4;
       let temp_path := temp_path_of u file in
       stage temp_path file;;
       rd ← open_reader temp_path;
       pgs ← lib (reader_pages rd);
       let total_pages := Z.of_nat (length pgs) in
       page_nums ← lib (split_page_nums pages total_pages);
       output_files ← for_each page_nums [] (split_one pgs);
       unlink temp_path;;
       match output_files with
       | first :: _ =>
           mret (FileResponse first ("split_" ++ filename file) "application/pdf")
       | [] => raise (HTTPException 400 "No valid pages to split")
       end)
      internal_error.

(** *** POST /api/rotate *)

(** One turn of [for part in pages.split(',')] of [rotate_pdf]. *)
Definition rotate_part (total_pages : Z) (pages_to_rotate : gset Z) (part : string)
  : result (gset Z) :=
  if PyStr.contains "-" part then
    '(start, end_) ← unpack_range part;
    Ok (pages_to_rotate ∪ list_to_set (range (start - 1) (Z.min end_ total_pages)))
  else
    n ← int_ part; Ok (pages_to_rotate ∪ {[ n - 1 ]}).

Fixpoint rotate_parts (total_pages : Z) (pages_to_rotate : gset Z) (parts : list string)
  : result (gset Z) :=
  match parts with
  | [] => Ok pages_to_rotate
  | part :: parts' =>
      s ← rotate_part total_pages pages_to_rotate part;
      rotate_parts total_pages s parts'
  end.

(** [pages_to_rotate] of [rotate_pdf]. *)
Definition rotate_selection (pages : string) (total_pages : Z) : result (gset Z) :=
  if String.eqb (PyStr.lower pages) "all" then Ok (list_to_set (range 0 total_pages))
  else rotate_parts total_pages ∅ (PyStr.split "," pages).

(** [for i, page in enumerate(reader.pages)], from index [i] on: the pages
    handed to the writer. *)
Fixpoint rotate_from (i : Z) (angle : Z) (pages_to_rotate : gset Z) (pgs : list page)
  : result (list page) :=
  match pgs with
  | [] => Ok []
  | pg :: pgs' =>
      pg' ← (if decide (i ∈ pages_to_rotate) then page_rotate pg angle else Ok pg);
      rest ← rotate_from (i + 1) angle pages_to_rotate pgs';
      Ok (pg' :: rest)
  end.

Definition allowed_angles : list Z := [90; 180; 270; -90; -180; -270].

Definition rotate_pdf (file : UploadFile) (angle : Z) (pages : string) : Py Response :=
  if negb (is_pdf (filename file)) then
    raise (HTTPException 400 "File must be a PDF")
  else if negb (bool_decide (angle ∈ allowed_angles)) then
    raise (HTTPException 400 "Angle must be 90, 180, or 270 degrees")
  else
    try_except
      (u ← uuid4;
       let temp_path := temp_path_of u file in
       stage temp_path file;;
       rd ← open_reader temp_path;
       pgs ← lib (reader_pages rd);
       let total_pages := Z.of_nat (length pgs) in
       pages_to_rotate ← lib (rotate_selection pages total_pages);
       out ← lib (rotate_from 0 angle pages_to_rotate pgs);
       u' ← uuid4;
       let output_filename := "rotated_" ++ PyStr.take 8 u' ++ ".pdf" in
       let output_path := (OUTPUT_DIR, output_filename) in
       write_pdf output_path (mkWriter out None);;
       unlink temp_path;;
       cleanup_file output_path default_delay;;
       mret (FileResponse output_path output_filename "application/pdf"))
      internal_error.

(** *** POST /api/pdf-to-images *)

(** [Image.new('RGB', (612, 792), color='white')] *)
Definition placeholder : Image := mkImage "RGB" (612, 792) "white".

Definition pdf_to_images (file : UploadFile) (format : string) (dpi : Z) : Py Response :=
  if negb (is_pdf (filename file)) then
    raise (HTTPException 400 "File must be a PDF")
  else
    try_except
      (u ← uuid4;
       let temp_path := temp_path_of u file in
       stage temp_path file;;
       rd ← open_reader temp_path;
       pgs ← lib (reader_pages rd);
       first_page ← match pgs with
                    | pg :: _ => mret pg
                    | [] => raise (Exception "IndexError" "sequence index out of range")
                    end;
       let img := placeholder in
       let output_filename := "page_1." ++ format in
       u' ← uuid4;
       let output_path := (OUTPUT_DIR, PyStr.take 8 u' ++ "_" ++ output_filename) in
       data ← lib (Image_save img format);
       open_wb output_path;;
       write_bytes output_path data;;
       unlink temp_path;;
       cleanup_file output_path default_delay;;
       mret (FileResponse output_path output_filename ("image/" ++ format)))
      internal_error.

(** *** POST /api/protect *)

(** [not password or len(password) < 4] *)
Definition weak_password (password : string) : bool :=
  String.eqb password "" || (String.length password <? 4)%nat.

Definition protect_pdf (file : UploadFile) (password : string) : Py Response :=
  if negb (is_pdf (filename file)) then
    raise (HTTPException 400 "File must be a PDF")
  else if weak_password password then
    raise (HTTPException 400 "Password must be at least 4 characters")
  else
    try_except
      (u ← uuid4;
       let temp_path := temp_path_of u file in
       stage temp_path file;;
       rd ← open_reader temp_path;
       pgs ← lib (reader_pages rd);
       u' ← uuid4;
       let output_filename := "protected_" ++ PyStr.take 8 u' ++ ".pdf" in
       let output_path := (OUTPUT_DIR, output_filename) in
       write_pdf output_path (mkWriter pgs (Some password));;
       unlink temp_path;;
       cleanup_file output_path default_delay;;
       mret (FileResponse output_path output_filename "application/pdf"))
      internal_error.

(** *** POST /api/unlock *)

(** [if reader.is_encrypted: if not reader.decrypt(password): raise ...] *)
Definition unlock_reader (rd : reader) (password : string) : Py reader :=
  if is_encrypted rd then
    '(verdict, rd') ← lib (reader_decrypt rd password);
    match verdict with
    | NOT_DECRYPTED => raise (HTTPException 400 "Incorrect password")
    | _ => mret rd'
    end
  else mret rd.

(** [except HTTPException: raise], then the general clause. *)
Definition reraise_http {A : Type} (e : exn) : Py A :=
  match e with
  | HTTPException _ _ => raise e
  | Exception _ _ => internal_error e
  end.

Definition unlock_pdf (file : UploadFile) (password : string) : Py Response :=
  if negb (is_pdf (filename file)) then
    raise (HTTPException 400 "File must be a PDF")
  else
    try_except
      (u ← uuid4;
       let temp_path := temp_path_of u file in
       stage temp_path file;;
       rd ← open_reader temp_path;
       rd' ← unlock_reader rd password;
       pgs ← lib (reader_pages rd');
       u' ← uuid4;
       let output_filename := "unlocked_" ++ PyStr.take 8 u' ++ ".pdf" in
       let output_path := (OUTPUT_DIR, output_filename) in
       write_pdf output_path (mkWriter pgs None);;
       unlink temp_path;;
       cleanup_file output_path default_delay;;
       mret (FileResponse output_path output_filename "application/pdf"))
      reraise_http.

(** *** POST /api/add-page-numbers *)

(** What the loop body draws for the page at index [i]. *)
Definition number_overlay (position : string) (start_from : Z) (i : Z) : Overlay :=
  let page_number := start_from + i in
  let y := if PyStr.contains "bottom" position then 30 else letter.2 - 30 in
  let x := if PyStr.contains "center" position then letter.1 / 2
           else if PyStr.contains "right" position then letter.1 - 50
           else 50 in
  mkOverlay ("Helvetica", 10) (0, 0, 0) x y (PyStr.str page_number).

(** [for i, page in enumerate(reader.pages)], from index [i] on. *)
Fixpoint number_from (i : Z) (position : string) (start_from : Z) (pgs : list page)
  : result (list page) :=
  match pgs with
  | [] => Ok []
  | pg :: pgs' =>
      stamp ← canvas_page (number_overlay position start_from i);
      pg' ← page_merge_page pg stamp;
      rest ← number_from (i + 1) position start_from pgs';
      Ok (pg' :: rest)
  end.

Definition add_page_numbers (file : UploadFile) (position : string) (start_from : Z)
  : Py Response :=
  if negb (is_pdf (filename file)) then
    raise (HTTPException 400 "File must be a PDF")
  else
    try_except
      (u ← uuid4;
       let temp_path := temp_path_of u file in
       stage temp_path file;;
       rd ← open_reader temp_path;
       pgs ← lib (reader_pages rd);
       out ← lib (number_from 0 position start_from pgs);
       u' ← uuid4;
       let output_filename := "numbered_" ++ PyStr.take 8 u' ++ ".pdf" in
       let output_path := (OUTPUT_DIR, output_filename) in
       write_pdf output_path (mkWriter out None);;
       unlink temp_path;;
       cleanup_file output_path default_delay;;
       mret (FileResponse output_path output_filename "application/pdf"))
      internal_error.

(** *** POST /api/compress *)

(** [p.stat().st_size] *)
Definition stat_size (p : path) : Py Z := fun w =>
  match fs w !! p with
  | Some b => (Return (Z.of_nat (length b)), w)
  | None => (Raise (Exception "FileNotFoundError" "No such file or directory"), w)
  end.

(** [for page in reader.pages: page.compress_content_streams(); writer.add_page(page)] *)
Fixpoint compress_all (pgs : list page) : result (list page) :=
  match pgs with
  | [] => Ok []
  | pg :: pgs' =>
      pg' ← page_compress pg;
      rest ← compress_all pgs';
      Ok (pg' :: rest)
  end.

(** [quality] is not used; [writer.add_metadata({})] adds nothing.  The
    headers are computed in the [return] statement, after the clean-up. *)
Definition compress_pdf (file : UploadFile) (quality : string) : Py Response :=
  if negb (is_pdf (filename file)) then
    raise (HTTPException 400 "File must be a PDF")
  else
    try_except
      (u ← uuid4;
       let temp_path := temp_path_of u file in
       stage temp_path file;;
       rd ← open_reader temp_path;
       pgs ← lib (reader_pages rd);
       out ← lib (compress_all pgs);
       u' ← uuid4;
       let output_filename := "compressed_" ++ PyStr.take 8 u' ++ ".pdf" in
       let output_path := (OUTPUT_DIR, output_filename) in
       write_pdf output_path (mkWriter out None);;
       original_size ← stat_size temp_path;
       compressed_size ← stat_size output_path;
       unlink temp_path;;
       cleanup_file output_path default_delay;;
       if original_size =? 0 then
         raise (Exception "ZeroDivisionError" "division by zero")
       else
         mret (FileResponse_headers output_path output_filename "application/pdf"
                 [("X-Original-Size", PyStr.str original_size);
                  ("X-Compressed-Size", PyStr.str compressed_size);
                  ("X-Compression-Ratio", ratio_text compressed_size original_size)]))
      internal_error.

(** *** POST /api/images-to-pdf *)

Definition valid_extensions : list string :=
  [".jpg"; ".jpeg"; ".png"; ".gif"; ".bmp"; ".webp"].

(** One turn of [for file in files]. *)
Definition images_one (acc : list picture * list path) (file : UploadFile)
  : Py (list picture * list path) :=
  let '(images, temp_files) := acc in
  let ext := PyStr.lower (path_suffix (filename file)) in
  if negb (bool_decide (ext ∈ valid_extensions)) then
    raise (HTTPException 400 ("File " ++ filename file ++ " is not a valid image"))
  else
    u ← uuid4;
    let temp_path := temp_path_of u file in
    stage temp_path file;;
    data ← read_bytes temp_path;
    img ← lib (Image_open data);
    img' ← (if String.eqb (picture_mode img) "RGBA"
            then lib (picture_convert img "RGB") else mret img);
    mret ((images ++ [img'])%list, (temp_files ++ [temp_path])%list).

Definition images_to_pdf (files : list UploadFile) : Py Response :=
  try_except
    ('(images, temp_files) ← for_each files ([], []) images_one;
     match images with
     | [] => raise (HTTPException 400 "No valid images provided")
     | first_image :: other_images =>
         u ← uuid4;
         let output_filename := "images_to_pdf_" ++ PyStr.take 8 u ++ ".pdf" in
         let output_path := (OUTPUT_DIR, output_filename) in
         data ← lib (picture_save_pdf first_image other_images);
         open_wb output_path;;
         write_bytes output_path data;;
         for_each temp_files () (fun _ temp_file => unlink temp_file);;
         cleanup_file output_path default_delay;;
         mret (FileResponse output_path output_filename "application/pdf")
     end)
    internal_error.

(** *** POST /api/watermark *)

(** [for page in reader.pages: page.merge_page(watermark_page); writer.add_page(page)] *)
Fixpoint watermark_all (watermark_page : page) (pgs : list page) : result (list page) :=
  match pgs with
  | [] => Ok []
  | pg :: pgs' =>
      pg' ← page_merge_page pg watermark_page;
      rest ← watermark_all watermark_page pgs';
      Ok (pg' :: rest)
  end.

(** [position] is not used. *)
Definition add_watermark (file : UploadFile) (text : string) (opacity : pyfloat)
    (position : string) : Py Response :=
  if negb (is_pdf (filename file)) then
    raise (HTTPException 400 "File must be a PDF")
  else
    try_except
      (u ← uuid4;
       let temp_path := temp_path_of u file in
       stage temp_path file;;
       rd ← open_reader temp_path;
       watermark_page ← lib (watermark_stamp text opacity);
       pgs ← lib (reader_pages rd);
       out ← lib (watermark_all watermark_page pgs);
       u' ← uuid4;
       let output_filename := "watermarked_" ++ PyStr.take 8 u' ++ ".pdf" in
       let output_path := (OUTPUT_DIR, output_filename) in
       write_pdf output_path (mkWriter out None);;
       unlink temp_path;;
       cleanup_file output_path default_delay;;
       mret (FileResponse output_path output_filename "application/pdf"))
      internal_error.

(** *** POST /api/extract-text *)

(** [for i, page in enumerate(reader.pages)], from index [i] on. *)
Fixpoint extract_from (i : Z) (pgs : list page) : result (list json) :=
  match pgs with
  | [] => Ok []
  | pg :: pgs' =>
      text ← page_extract_text pg;
      rest ← extract_from (i + 1) pgs';
      Ok (JDict [("page", JInt (i + 1)); ("content", JStr text)] :: rest)
  end.

Definition extract_text (file : UploadFile) : Py Response :=
  if negb (is_pdf (filename file)) then
    raise (HTTPException 400 "File must be a PDF")
  else
    try_except
      (u ← uuid4;
       let temp_path := temp_path_of u file in
       stage temp_path file;;
       rd ← open_reader temp_path;
       pgs ← lib (reader_pages rd);
       extracted_text ← lib (extract_from 0 pgs);
       unlink temp_path;;
       mret (JSONResponse
               (JDict [("filename", JStr (filename file));
                       ("total_pages", JInt (Z.of_nat (length pgs)));
                       ("pages", JList extracted_text)])))
      internal_error.

(** *** POST /api/get-metadata *)

(** [metadata.get(key, "") if metadata else ""] *)
Definition metadata_get (metadata : option (string -> option string)) (key : string)
  : string :=
  match metadata with
  | Some lookup => default "" (lookup key)
  | None => ""
  end.

Definition get_metadata (file : UploadFile) : Py Response :=
  if negb (is_pdf (filename file)) then
    raise (HTTPException 400 "File must be a PDF")
  else
    try_except
      (u ← uuid4;
       let temp_path := temp_path_of u file in
       stage temp_path file;;
       rd ← open_reader temp_path;
       metadata ← lib (reader_metadata rd);
       pgs ← lib (reader_pages rd);
       let info :=
         JDict [("filename", JStr (filename file));
                ("total_pages", JInt (Z.of_nat (length pgs)));
                ("is_encrypted", JBool (is_encrypted rd));
                ("metadata",
                 JDict [("title", JStr (metadata_get metadata "/Title"));
                        ("author", JStr (metadata_get metadata "/Author"));
                        ("subject", JStr (metadata_get metadata "/Subject"));
                        ("creator", JStr (metadata_get metadata "/Creator"));
                        ("producer", JStr (metadata_get metadata "/Producer"));
                        ("creation_date", JStr (metadata_get metadata "/CreationDate"));
                        ("modification_date", JStr (metadata_get metadata "/ModDate"))])] in
       unlink temp_path;;
       mret (JSONResponse info))
      internal_error.

End Handlers.

(** ** A small concrete host and codec

    Used to run the handlers on concrete requests.  A document is a header
    byte (0 plain, 1 encrypted) followed by its pages, each page a run of
    bytes closed by a line feed.  The only password is "sesame". *)

Module Toy.

Import Byte.

Definition host : Host := {|
  uuid_source n := String (ascii_of_nat (48 + n mod 10)) "fedcba9876543210fedcba987654321";
  can_open _ := true;
  path_suffix name := substring (String.length name - 4) 4 name;
  ratio_text compressed_size original_size :=
    PyStr.str ((original_size - compressed_size) * 100 / original_size) ++ "%"
|}.

Record toy_reader : Type := mkReader {
  r_encrypted : bool;
  r_locked : bool;
  r_pages : list bytes
}.

(** The pages of a body: runs of bytes, each closed by a line feed. *)
Fixpoint cut (cur : bytes) (body : bytes) : list bytes :=
  match body with
  | [] => []
  | b :: body' =>
      if Byte.eqb b x0a then rev cur :: cut [] body'
      else cut (b :: cur) body'
  end.

Definition join (pgs : list bytes) : bytes :=
  concat (map (fun pg => pg ++ [x0a])%list pgs).

Definition parse (data : bytes) : result toy_reader :=
  match data with
  | x00 :: body => Ok (mkReader false false (cut [] body))
  | x01 :: body => Ok (mkReader true true (cut [] body))
  | _ => Fail "PdfReadError" "EOF marker not found"
  end.

Definition pages_of (r : toy_reader) : result (list bytes) :=
  if r_locked r then Fail "FileNotDecryptedError" "File has not been decrypted"
  else Ok (r_pages r).

Definition decrypt (r : toy_reader) (password : string) : result (PasswordType * toy_reader) :=
  if String.eqb password "sesame"
  then Ok (OWNER_PASSWORD, mkReader (r_encrypted r) false (r_pages r))
  else Ok (NOT_DECRYPTED, r).

Definition serialize (w : PdfWriter bytes) : result bytes :=
  Ok ((match w_password w with Some _ => x01 | None => x00 end) :: join (w_pages w)).

Definition supported_formats : list string := ["png"; "jpeg"; "gif"; "bmp"; "webp"].

Definition codec : Codec := {|
  page := bytes;
  reader := toy_reader;
  merger := list bytes;
  picture := bytes;
  pyfloat := Z;
  PdfReader := parse;
  reader_pages := pages_of;
  is_encrypted := r_encrypted;
  reader_decrypt := decrypt;
  PdfWriter_write := serialize;
  PdfMerger_new := [];
  PdfMerger_append m data := r ← parse data; pgs ← pages_of r; Ok (m ++ pgs)%list;
  PdfMerger_write m := serialize (mkWriter m None);
  page_rotate pg angle := Ok (pg ++ list_byte_of_string (PyStr.str angle))%list;
  page_merge_page pg other := Ok (pg ++ other)%list;
  canvas_page ov := Ok (list_byte_of_string (ov_text ov));
  Image_save img fmt :=
    if bool_decide (fmt ∈ supported_formats)
    then Ok (list_byte_of_string (img_color img ++ "." ++ fmt))
    else Fail "KeyError" fmt;
  reader_metadata _ := Ok None;
  page_compress pg := Ok pg;
  page_extract_text pg := Ok (string_of_list_byte pg);
  watermark_stamp text opacity := Ok (list_byte_of_string text);
  Image_open data := Ok data;
  picture_mode _ := "RGB";
  picture_convert img mode := Ok img;
  picture_save_pdf first others := serialize (mkWriter (first :: others) None)
|}.

(** The same codec for documents that carry a title and nothing else. *)
Definition titled (key : string) : option string :=
  if String.eqb key "/Title" then Some "Report" else None.

Definition codec_titled : Codec := {|
  page := bytes;
  reader := toy_reader;
  merger := list bytes;
  picture := bytes;
  pyfloat := Z;
  PdfReader := parse;
  reader_pages := pages_of;
  is_encrypted := r_encrypted;
  reader_decrypt := decrypt;
  PdfWriter_write := serialize;
  PdfMerger_new := [];
  PdfMerger_append m data := r ← parse data; pgs ← pages_of r; Ok (m ++ pgs)%list;
  PdfMerger_write m := serialize (mkWriter m None);
  page_rotate pg angle := Ok (pg ++ list_byte_of_string (PyStr.str angle))%list;
  page_merge_page pg other := Ok (pg ++ other)%list;
  canvas_page ov := Ok (list_byte_of_string (ov_text ov));
  Image_save img fmt := Fail "KeyError" fmt;
  reader_metadata _ := Ok (Some titled);
  page_compress pg := Ok pg;
  page_extract_text pg := Ok (string_of_list_byte pg);
  watermark_stamp text opacity := Ok (list_byte_of_string text);
  Image_open data := Ok data;
  picture_mode _ := "RGBA";
  picture_convert img mode := Ok (img ++ list_byte_of_string mode)%list;
  picture_save_pdf first others := serialize (mkWriter (first :: others) None)
|}.

Definition empty_world : world := mkWorld ∅ [] 0 0.

(** Two one-page documents ("A" and "B"), a two-page one, an encrypted one
    and a file that is no document. *)
Definition doc_A : bytes := [x00; x41; x0a].
Definition doc_B : bytes := [x00; x42; x0a].
Definition doc_AB : bytes := [x00; x41; x0a; x42; x0a].
Definition doc_locked : bytes := [x01; x41; x0a].
Definition junk : bytes := [x25; x25].

End Toy.

(** ** Reasoning about handlers

    [wp m Q X w]: run from [w], [m] either returns a value and a world that
    satisfy [Q], or raises an exception in a world that satisfy [X]. *)

Definition wp {A : Type} (m : Py A)
    (Q : A -> world -> Prop) (X : exn -> world -> Prop) (w : world) : Prop :=
  match m w with
  | (Return a, w') => Q a w'
  | (Raise e, w') => X e w'
  end.

(** The generated zone and the scheduled deletions are as they were. *)
Definition outputs_untouched (w0 w : world) : Prop :=
  (forall name, fs w !! (OUTPUT_DIR, name) = fs w0 !! (OUTPUT_DIR, name))
  /\ timers w = timers w0.

(** The file is gone, or its deletion is still pending and not overdue. *)
Definition pending_or_gone (p : path) (due : Z) (w : world) : Prop :=
  fs w !! p = None \/ ((due, p) ∈ timers w /\ clock w <= due).

(** The incoming zone after a run from [w] to [w']: the files in [staged]
    are gone, every other name holds what it held. *)
Definition staged_removed (staged : list path) (w w' : world) : Prop :=
  forall name,
    fs w' !! (UPLOAD_DIR, name)
    = if bool_decide ((UPLOAD_DIR, name) ∈ staged) then None
      else fs w !! (UPLOAD_DIR, name).

(** The file a response sends, if it sends one. *)
Definition response_file (r : Response) : option path :=
  match r with
  | FileResponse p _ _ | FileResponse_headers p _ _ _ => Some p
  | JSONResponse _ => None
  end.

(** After a run from [w] to [w'] that answered [r]: the file [r] sends is
    in the generated zone, it exists, and its deletion is scheduled 300
    seconds after the request. *)
Definition artifact_registered (w w' : world) (r : Response) : Prop :=
  exists p,
    response_file r = Some p
    /\ p.1 = OUTPUT_DIR
    /\ is_Some (fs w' !! p)
    /\ (clock w + 300, p) ∈ timers w'
    /\ clock w' = clock w.

(** [merger.append] on each upload in turn. *)
Fixpoint append_all `{!Codec} (m : merger) (files : list UploadFile) : result merger :=
  match files with
  | [] => Ok m
  | file :: files' => m' ← PdfMerger_append m (content file); append_all m' files'
  end.

(** The artifacts of [split_pdf] for the page numbers [nums], when the
    first uuid drawn for them is number [n]. *)
Fixpoint split_outputs `{!Host} (n : nat) (nums : list Z) : list path :=
  match nums with
  | [] => []
  | page_num :: nums' =>
      (OUTPUT_DIR,
       "page_" ++ PyStr.str (page_num + 1) ++ "_" ++ PyStr.take 6 (uuid_source n) ++ ".pdf")
      :: split_outputs (S n) nums'
  end.

(** An event that leaves the file [p] and its timers alone. *)
Definition leaves_alone (p : path) (ev : event) : Prop :=
  match ev with
  | Elapse _ => True
  | Remove q | Register q _ | Persist q _ => q <> p
  end.

(** [Image.open] on each upload in turn, and [convert('RGB')] for the
    images whose mode is RGBA. *)
Fixpoint open_all `{!Codec} (files : list UploadFile) : result (list picture) :=
  match files with
  | [] => Ok []
  | file :: files' =>
      img ← Image_open (content file);
      img' ← (if String.eqb (picture_mode img) "RGBA" then picture_convert img "RGB"
              else Ok img);
      rest ← open_all files';
      Ok (img' :: rest)
  end.

(** The entry of [extract_text] for the page at index [i]. *)
Definition page_entry (i : nat) (text : string) : json :=
  JDict [("page", JInt (Z.of_nat i + 1)); ("content", JStr text)].

(** The names [merge_pdfs] and [images_to_pdf] stage their files under,
    when the first uuid drawn is number [n]. *)
Fixpoint temp_paths `{!Host} (n : nat) (files : list UploadFile) : list path :=
  match files with
  | [] => []
  | file :: files' => temp_path_of (uuid_source n) file :: temp_paths (S n) files'
  end.

Section Logic.

Context `{!Host, !Codec}.

Lemma wp_spec {A} (m : Py A) Q X w :
  wp m Q X w <->
  forall o w', m w = (o, w') ->
    match o with Return a => Q a w' | Raise e => X e w' end.
Proof.
  unfold wp. split.
  - intros Hwp o w' Hm. rewrite Hm in Hwp. by destruct o.
  - intros Hall. destruct (m w) as [[a|e] w'] eqn:Hm; by apply (Hall _ _ eq_refl).
Qed.

Lemma wp_mono {A} (m : Py A) (Q Q' : A -> world -> Prop) (X X' : exn -> world -> Prop) w :
  (forall a w', Q a w' -> Q' a w') ->
  (forall e w', X e w' -> X' e w') ->
  wp m Q X w -> wp m Q' X' w.
Proof. unfold wp. intros HQ HX. destruct (m w) as [[a|e] w']; auto. Qed.

Lemma wp_ret {A} (a : A) Q X w : Q a w -> wp (mret a) Q X w.
Proof. done. Qed.

Lemma wp_raise {A} e (Q : A -> world -> Prop) X w : X e w -> wp (raise e) Q X w.
Proof. done. Qed.

Lemma wp_bind {A B} (m : Py A) (k : A -> Py B) Q X w :
  wp m (fun a => wp (k a) Q X) X w -> wp (m ≫= k) Q X w.
Proof.
  unfold wp, mbind, Py_bind. by destruct (m w) as [[a|e] w'].
Qed.

Lemma wp_try {A} (body : Py A) handler Q X w :
  wp body Q (fun e => wp (handler e) Q X) w -> wp (try_except body handler) Q X w.
Proof.
  unfold wp, try_except. by destruct (body w) as [[a|e] w'].
Qed.

Lemma wp_lib {A} (r : result A) (Q : A -> world -> Prop) X w :
  (forall a, r = Ok a -> Q a w) ->
  (forall c m, r = Fail c m -> X (Exception c m) w) ->
  wp (lib r) Q X w.
Proof. unfold wp, lib. destruct r; simpl; auto. Qed.

Lemma wp_for_each {A B} (I : B -> world -> Prop) (xs : list A) acc body
    (Q : B -> world -> Prop) X w :
  I acc w ->
  (forall acc x w, I acc w -> wp (body acc x) I X w) ->
  (forall acc w, I acc w -> Q acc w) ->
  wp (for_each xs acc body) Q X w.
Proof.
  intros HI Hbody HQ. revert acc w HI.
  induction xs as [|x xs IH]; intros acc w HI; simpl.
  - apply wp_ret. auto.
  - apply wp_bind. eapply wp_mono; [ | | by apply Hbody].
    + intros acc' w' HI'. by apply IH.
    + auto.
Qed.

Lemma wp_uuid4 (Q : string -> world -> Prop) X w :
  Q (uuid_source (drawn w)) (mkWorld (fs w) (timers w) (clock w) (S (drawn w))) ->
  wp uuid4 Q X w.
Proof. done. Qed.

Lemma wp_open_wb p (Q : unit -> world -> Prop) X w :
  (can_open p = true -> Q () (with_fs (<[p := []]> (fs w)) w)) ->
  (can_open p = false -> X (Exception "OSError" "cannot open file for writing") w) ->
  wp (open_wb p) Q X w.
Proof. unfold wp, open_wb. destruct (can_open p); auto. Qed.

Lemma wp_write_bytes p data (Q : unit -> world -> Prop) X w :
  Q () (with_fs (<[p := data]> (fs w)) w) -> wp (write_bytes p data) Q X w.
Proof. done. Qed.

Lemma wp_read_bytes p (Q : bytes -> world -> Prop) X w :
  (forall b, fs w !! p = Some b -> Q b w) ->
  (fs w !! p = None -> X (Exception "FileNotFoundError" "No such file or directory") w) ->
  wp (read_bytes p) Q X w.
Proof. unfold wp, read_bytes. destruct (fs w !! p); auto. Qed.

Lemma wp_unlink p (Q : unit -> world -> Prop) X w :
  (is_Some (fs w !! p) -> Q () (with_fs (delete p (fs w)) w)) ->
  (fs w !! p = None -> X (Exception "FileNotFoundError" "No such file or directory") w) ->
  wp (unlink p) Q X w.
Proof. unfold wp, unlink. destruct (fs w !! p); eauto. Qed.

Lemma wp_stat_size p (Q : Z -> world -> Prop) X w :
  (forall b, fs w !! p = Some b -> Q (Z.of_nat (length b)) w) ->
  (fs w !! p = None -> X (Exception "FileNotFoundError" "No such file or directory") w) ->
  wp (stat_size p) Q X w.
Proof. unfold wp, stat_size. destruct (fs w !! p); auto. Qed.

Lemma wp_cleanup_file p delay (Q : unit -> world -> Prop) X w :
  Q () (mkWorld (fs w) (timers w ++ [(clock w + Z.max 0 delay, p)])%list (clock w) (drawn w)) ->
  wp (cleanup_file p delay) Q X w.
Proof. done. Qed.

End Logic.

(** ** Tactics *)

(** One step of symbolic execution of a handler. *)
Ltac wp_step :=
  lazymatch goal with
  | |- wp (mbind _ _) _ _ _ => apply wp_bind
  | |- wp (mret _) _ _ _ => apply wp_ret
  | |- wp (raise _) _ _ _ => apply wp_raise
  | |- wp (try_except _ _) _ _ _ => apply wp_try
  | |- wp uuid4 _ _ _ => apply wp_uuid4
  | |- wp (write_bytes _ _) _ _ _ => apply wp_write_bytes
  | |- wp (cleanup_file _ _) _ _ _ => apply wp_cleanup_file
  | |- wp (open_wb _) _ _ _ => apply wp_open_wb; intros ?
  | |- wp (read_bytes _) _ _ _ => apply wp_read_bytes; [intros ? ? | intros ?]
  | |- wp (unlink _) _ _ _ => apply wp_unlink; intros ?
  | |- wp (stat_size _) _ _ _ => apply wp_stat_size; [intros ? ? | intros ?]
  | |- wp (lib _) _ _ _ => apply wp_lib; [intros ? ? | intros ? ? ?]
  | |- wp (stage _ _) _ _ _ => unfold stage
  | |- wp (write_pdf _ _) _ _ _ => unfold write_pdf
  | |- wp (open_reader _) _ _ _ => unfold open_reader
  | |- wp (internal_error _) _ _ _ => unfold internal_error
  | |- wp (reraise_http ?e) _ _ _ => unfold reraise_http
  end; cbv beta zeta.

(** Two facts about the same call determine each other. *)
Ltac same_call :=
  repeat match goal with
         | H1 : ?r = _, H2 : ?r = _ |- _ => rewrite H1 in H2; simplify_eq
         end.

Ltac wp_run :=
  repeat (wp_step; cbn [fs timers clock drawn with_fs] in *;
          try (exfalso; congruence); simplify_map_eq; same_call).

Section Runs.

Context `{HH : !Host, CC : !Codec}.

Lemma wp_eq {A} (m : Py A) (r : outcome A * world) w :
  wp m (fun a w' => (Return a, w') = r) (fun e w' => (Raise e, w') = r) w -> m w = r.
Proof. unfold wp. by destruct (m w) as [[a|e] w']. Qed.

Lemma wp_returns {A} (m : Py A) (Q : A -> world -> Prop) w :
  wp m Q (fun _ _ => False) w -> exists a w', m w = (Return a, w') /\ Q a w'.
Proof. unfold wp. destruct (m w) as [[a|e] w']; [eauto | done]. Qed.

Lemma wp_post {A} (m : Py A) (P : outcome A -> world -> Prop) w :
  wp m (fun a => P (Return a)) (fun e => P (Raise e)) w -> P (m w).1 (m w).2.
Proof. unfold wp. by destruct (m w) as [[a|e] w']. Qed.

(** A handler whose body runs under [except Exception] answers 200 or 500. *)
Lemma guarded_status {A} (body : Py A) w :
  status_of (try_except body internal_error w).1 = 200
  \/ status_of (try_except body internal_error w).1 = 500.
Proof.
  unfold try_except. destruct (body w) as [[a|e] w']; simpl; auto.
Qed.

(** *** Validation comes first *)

Lemma not_pdf_rejected {A} (file : UploadFile) (rest : Py A) w :
  is_pdf (filename file) = false ->
  (if negb (is_pdf (filename file))
   then raise (HTTPException 400 "File must be a PDF") else rest) w
  = (Raise (HTTPException 400 "File must be a PDF"), w).
Proof. by intros ->. Qed.

Lemma rotate_bad_angle (file : UploadFile) angle pages w :
  is_pdf (filename file) = true ->
  angle ∉ allowed_angles ->
  rotate_pdf file angle pages w
  = (Raise (HTTPException 400 "Angle must be 90, 180, or 270 degrees"), w).
Proof.
  intros Hpdf Hangle. unfold rotate_pdf. rewrite Hpdf. cbn [negb].
  by rewrite bool_decide_eq_false_2.
Qed.

Lemma rotate_good_angle (file : UploadFile) angle pages w :
  is_pdf (filename file) = true ->
  angle ∈ allowed_angles ->
  status_of (rotate_pdf file angle pages w).1 = 200
  \/ status_of (rotate_pdf file angle pages w).1 = 500.
Proof.
  intros Hpdf Hangle. unfold rotate_pdf. rewrite Hpdf. cbn [negb].
  rewrite bool_decide_eq_true_2 by done. cbn [negb]. apply guarded_status.
Qed.

Lemma short_is_weak password :
  (String.length password < 4)%nat -> weak_password password = true.
Proof.
  intros Hlen. unfold weak_password. apply orb_true_iff. right.
  by apply Nat.ltb_lt.
Qed.

Lemma protect_weak_password (file : UploadFile) password w :
  is_pdf (filename file) = true ->
  weak_password password = true ->
  protect_pdf file password w
  = (Raise (HTTPException 400 "Password must be at least 4 characters"), w).
Proof.
  intros Hpdf Hweak. unfold protect_pdf. by rewrite Hpdf, Hweak.
Qed.

(** *** Unlocking *)

Lemma wrong_password_run (file : UploadFile) password w rd rd' :
  is_pdf (filename file) = true ->
  can_open (temp_path_of (uuid_source (drawn w)) file) = true ->
  PdfReader (content file) = Ok rd ->
  is_encrypted rd = true ->
  reader_decrypt rd password = Ok (NOT_DECRYPTED, rd') ->
  unlock_pdf file password w =
    (Raise (HTTPException 400 "Incorrect password"),
     mkWorld (<[temp_path_of (uuid_source (drawn w)) file := content file]> (fs w))
       (timers w) (clock w) (S (drawn w))).
Proof.
  intros Hpdf Hopen Hrd Henc Hdec.
  unfold unlock_pdf. rewrite Hpdf. cbn [negb].
  apply wp_eq. wp_run.
  unfold unlock_reader. rewrite Henc. wp_run.
  by rewrite insert_insert_eq.
Qed.

End Runs.

(** * The claims *)

(** ** Rotation: the angle gate *)

Section Rotate_gate.

Context `{HH : !Host, CC : !Codec}.

(** A request with an allowed angle and a PDF file name gets past the
    validation: it is answered from inside the [try] block. *)
Lemma rotate_allowed_angle_passes (file : UploadFile) angle pages w :
  is_pdf (filename file) = true ->
  In angle [90; 180; 270; -90; -180; -270] ->
  status_of (rotate_pdf file angle pages w).1 <> 400.
Proof.
  intros Hpdf Hin.
  destruct (rotate_good_angle file angle pages w Hpdf) as [-> | ->]; [ | done..].
  by apply list_elem_of_In.
Qed.

(** C5. [rotate_pdf] accepts an angle only if it is one of 90, 180, 270,
    -90, -180, -270: for any other angle the request is answered with a
    400 and the world, hence the file system, is exactly as it was. *)
Theorem rotate_rejects_other_angles (file : UploadFile) (angle : Z) (pages : string)
    (w : world) :
  ~ In angle [90; 180; 270; -90; -180; -270] ->
  exists detail,
    rotate_pdf file angle pages w = (Raise (HTTPException 400 detail), w).
Proof.
  intros Hangle.
  destruct (is_pdf (filename file)) eqn:Hpdf.
  - eexists. apply rotate_bad_angle; [done|].
    intros Hin. apply Hangle. by apply list_elem_of_In.
  - eexists. unfold rotate_pdf. by apply not_pdf_rejected.
Qed.

End Rotate_gate.

Lemma rotate_rejects_other_angles_witness :
  exists detail,
    @rotate_pdf Toy.host Toy.codec (mkUpload "scan.pdf" Toy.doc_AB) 45 "all" Toy.empty_world
    = (Raise (HTTPException 400 detail), Toy.empty_world).
Proof.
  apply (@rotate_rejects_other_angles Toy.host Toy.codec).
  cbn. intuition discriminate.
Defined.

(** ** Protection: the password gate *)

Section Protect_gate.

Context `{HH : !Host, CC : !Codec}.

(** C6. A [protect_pdf] request whose password has fewer than 4
    characters is answered with a 400, and the world is exactly as it was:
    nothing has been staged. *)
Theorem protect_rejects_short_password (file : UploadFile) (password : string)
    (w : world) :
  (String.length password < 4)%nat ->
  exists detail,
    protect_pdf file password w = (Raise (HTTPException 400 detail), w).
Proof.
  intros Hlen.
  destruct (is_pdf (filename file)) eqn:Hpdf.
  - eexists. apply protect_weak_password; [done|]. by apply short_is_weak.
  - eexists. unfold protect_pdf. by apply not_pdf_rejected.
Qed.

End Protect_gate.

Lemma protect_rejects_short_password_witness :
  exists detail,
    @protect_pdf Toy.host Toy.codec (mkUpload "scan.pdf" Toy.doc_AB) "abc" Toy.empty_world
    = (Raise (HTTPException 400 detail), Toy.empty_world).
Proof.
  apply (@protect_rejects_short_password Toy.host Toy.codec).
  cbn. lia.
Defined.

(** ** Unlocking *)

Section Unlock.

Context `{HH : !Host, CC : !Codec}.

(** C7. Unlocking an encrypted document with a password that the library
    refuses is answered with a 400, and the generated zone and the
    scheduled deletions are as they were. *)
Theorem unlock_wrong_password (file : UploadFile) (password : string) (w : world)
    (rd rd' : reader) :
  is_pdf (filename file) = true ->
  can_open (temp_path_of (uuid_source (drawn w)) file) = true ->
  PdfReader (content file) = Ok rd ->
  is_encrypted rd = true ->
  reader_decrypt rd password = Ok (NOT_DECRYPTED, rd') ->
  (unlock_pdf file password w).1 = Raise (HTTPException 400 "Incorrect password")
  /\ outputs_untouched w (unlock_pdf file password w).2.
Proof.
  intros Hpdf Hopen Hrd Henc Hdec.
  rewrite (wrong_password_run file password w rd rd') by done.
  split; [done|]. split; [|done].
  intros name. cbn. by rewrite lookup_insert_ne.
Qed.

(** C9. Unlocking a document that is not encrypted succeeds whatever the
    password is: the password occurs in no hypothesis.  The artifact is what
    the library writes for a writer holding exactly the pages of the input,
    and no password. *)
Theorem unlock_plain_document (file : UploadFile) (password : string) (w : world)
    (rd : reader) (pgs : list page) (data : bytes) :
  let temp_path := temp_path_of (uuid_source (drawn w)) file in
  let output_filename := "unlocked_" ++ PyStr.take 8 (uuid_source (S (drawn w))) ++ ".pdf" in
  is_pdf (filename file) = true ->
  can_open temp_path = true ->
  can_open (OUTPUT_DIR, output_filename) = true ->
  PdfReader (content file) = Ok rd ->
  is_encrypted rd = false ->
  reader_pages rd = Ok pgs ->
  PdfWriter_write (mkWriter pgs None) = Ok data ->
  exists w',
    unlock_pdf file password w
    = (Return (FileResponse (OUTPUT_DIR, output_filename) output_filename "application/pdf"), w')
    /\ fs w' !! (OUTPUT_DIR, output_filename) = Some data.
Proof.
  intros temp_path output_filename Hpdf Hopen Hout Hrd Henc Hpgs Hdata.
  unfold unlock_pdf. rewrite Hpdf. cbn [negb].
  match goal with
  | |- exists w', ?m w = (Return ?r, w') /\ _ =>
      destruct (wp_returns m (fun a w' => a = r /\ fs w' !! (OUTPUT_DIR, output_filename) = Some data) w)
        as (a & w' & Hrun & -> & Hfs); [ | by exists w' ]
  end.
  subst temp_path output_filename.
  wp_run. unfold unlock_reader. rewrite Henc. wp_run. done.
Qed.

End Unlock.

Lemma unlock_wrong_password_witness :
  (@unlock_pdf Toy.host Toy.codec (mkUpload "locked.pdf" Toy.doc_locked) "guess" Toy.empty_world).1
  = Raise (HTTPException 400 "Incorrect password")
  /\ outputs_untouched Toy.empty_world
       (@unlock_pdf Toy.host Toy.codec (mkUpload "locked.pdf" Toy.doc_locked) "guess" Toy.empty_world).2.
Proof.
  apply (@unlock_wrong_password Toy.host Toy.codec (mkUpload "locked.pdf" Toy.doc_locked)
           "guess" Toy.empty_world
           (Toy.mkReader true true [[Byte.x41]]) (Toy.mkReader true true [[Byte.x41]]));
    reflexivity.
Defined.

Lemma unlock_plain_document_witness :
  exists w',
    @unlock_pdf Toy.host Toy.codec (mkUpload "plain.pdf" Toy.doc_AB) "anything" Toy.empty_world
    = (Return (FileResponse (OUTPUT_DIR, "unlocked_1fedcba9.pdf") "unlocked_1fedcba9.pdf"
                 "application/pdf"), w')
    /\ fs w' !! (OUTPUT_DIR, "unlocked_1fedcba9.pdf") = Some Toy.doc_AB.
Proof.
  apply (@unlock_plain_document Toy.host Toy.codec (mkUpload "plain.pdf" Toy.doc_AB)
           "anything" Toy.empty_world
           (Toy.mkReader false false [[Byte.x41]; [Byte.x42]]) [[Byte.x41]; [Byte.x42]]);
    reflexivity.
Defined.

(** ** Page numbers *)

Section Page_numbers.

Context `{HH : !Host, CC : !Codec}.

Lemma number_overlay_eq position start_from i :
  number_overlay position start_from i
  = mkOverlay ("Helvetica", 10) (0, 0, 0)
      (if PyStr.contains "center" position then 306
       else if PyStr.contains "right" position then 562 else 50)
      (if PyStr.contains "bottom" position then 30 else 762)
      (PyStr.str (start_from + i)).
Proof.
  unfold number_overlay.
  by destruct (PyStr.contains "center" position), (PyStr.contains "right" position),
    (PyStr.contains "bottom" position).
Qed.

(** The loop of [add_page_numbers] succeeds exactly when every call into
    reportlab and pypdf does, and then page [k] carries the stamp of index
    [i + k]. *)
Lemma number_from_spec position start_from (pgs : list page) : forall i out,
  number_from i position start_from pgs = Ok out <->
  length out = length pgs
  /\ forall (k : nat) pg, pgs !! k = Some pg ->
       exists stamp pg',
         canvas_page (number_overlay position start_from (i + Z.of_nat k)) = Ok stamp
         /\ page_merge_page pg stamp = Ok pg'
         /\ out !! k = Some pg'.
Proof.
  induction pgs as [|pg0 pgs IH]; intros i out; simpl.
  - split.
    + intros [= <-]. split; [done|]. intros k pg Hk. by rewrite lookup_nil in Hk.
    + intros [Hlen _]. destruct out; [done | discriminate].
  - split.
    + intros Hrun.
      destruct (canvas_page (number_overlay position start_from i)) as [stamp|] eqn:Hstamp;
        [|discriminate].
      cbn in Hrun.
      destruct (page_merge_page pg0 stamp) as [pg0'|] eqn:Hmerge; [|discriminate].
      cbn in Hrun.
      destruct (number_from (i + 1) position start_from pgs) as [rest|] eqn:Hrest;
        [|discriminate].
      cbn in Hrun. injection Hrun as <-.
      apply IH in Hrest as [Hlen Hall].
      split; [simpl; by rewrite Hlen|].
      intros [|k] pg Hk; simpl in Hk.
      * injection Hk as <-. exists stamp, pg0'. by rewrite Z.add_0_r.
      * destruct (Hall k pg Hk) as (st & pg' & Hst & Hm & Hout).
        exists st, pg'. split; [|done].
        by replace (i + Z.of_nat (S k)) with (i + 1 + Z.of_nat k) by lia.
    + intros [Hlen Hall].
      destruct out as [|pg0' rest]; [discriminate|].
      destruct (Hall 0%nat pg0 eq_refl) as (stamp & pg' & Hstamp & Hmerge & Hout).
      rewrite Z.add_0_r in Hstamp. injection Hout as ->.
      rewrite Hstamp. cbn. rewrite Hmerge. cbn.
      assert (number_from (i + 1) position start_from pgs = Ok rest) as ->.
      { apply IH. split; [simpl in Hlen; lia|].
        intros k pg Hk. destruct (Hall (S k) pg Hk) as (st & pg'' & Hst & Hm & Ho).
        exists st, pg''. split; [|done].
        by replace (i + 1 + Z.of_nat k) with (i + Z.of_nat (S k)) by lia. }
      done.
Qed.

(** C10. [add_page_numbers] answers with an artifact exactly when the
    library calls of its loop and the final write succeed; the page at
    zero-based index [i] of the artifact is then the input page merged with
    an overlay whose text is [start_from + i], whose y-coordinate is 30 if
    [position] contains "bottom" and 762 otherwise, and whose x-coordinate
    is 306 if [position] contains "center", else 562 if it contains
    "right", else 50. *)
Theorem page_numbers_overlay (file : UploadFile) (position : string) (start_from : Z)
    (w : world) (rd : reader) (pgs : list page) (data : bytes) :
  let temp_path := temp_path_of (uuid_source (drawn w)) file in
  let output_filename := "numbered_" ++ PyStr.take 8 (uuid_source (S (drawn w))) ++ ".pdf" in
  is_pdf (filename file) = true ->
  can_open temp_path = true ->
  can_open (OUTPUT_DIR, output_filename) = true ->
  PdfReader (content file) = Ok rd ->
  reader_pages rd = Ok pgs ->
  (exists w',
     add_page_numbers file position start_from w
     = (Return (FileResponse (OUTPUT_DIR, output_filename) output_filename "application/pdf"), w')
     /\ fs w' !! (OUTPUT_DIR, output_filename) = Some data)
  <->
  (exists out : list page,
     length out = length pgs
     /\ (forall (i : nat) pg, pgs !! i = Some pg ->
           exists stamp pg',
             canvas_page
               (mkOverlay ("Helvetica", 10) (0, 0, 0)
                  (if PyStr.contains "center" position then 306
                   else if PyStr.contains "right" position then 562 else 50)
                  (if PyStr.contains "bottom" position then 30 else 762)
                  (PyStr.str (start_from + Z.of_nat i))) = Ok stamp
             /\ page_merge_page pg stamp = Ok pg'
             /\ out !! i = Some pg')
     /\ PdfWriter_write (mkWriter out None) = Ok data).
Proof.
  intros temp_path output_filename Hpdf Hopen Hout Hrd Hpgs.
  assert (forall out,
    (length out = length pgs
     /\ (forall (i : nat) pg, pgs !! i = Some pg ->
           exists stamp pg',
             canvas_page
               (mkOverlay ("Helvetica", 10) (0, 0, 0)
                  (if PyStr.contains "center" position then 306
                   else if PyStr.contains "right" position then 562 else 50)
                  (if PyStr.contains "bottom" position then 30 else 762)
                  (PyStr.str (start_from + Z.of_nat i))) = Ok stamp
             /\ page_merge_page pg stamp = Ok pg'
             /\ out !! i = Some pg'))
    <-> number_from 0 position start_from pgs = Ok out) as Hloop.
  { intros out. rewrite number_from_spec.
    setoid_rewrite number_overlay_eq. by setoid_rewrite Z.add_0_l. }
  unfold add_page_numbers. rewrite Hpdf. cbn [negb].
  subst temp_path output_filename.
  split.
  - intros (w' & Hrun & Hfile).
    match type of Hrun with
    | ?m w = _ =>
        assert (wp m (fun _ w' => forall d,
                        fs w' !! (OUTPUT_DIR, "numbered_" ++ PyStr.take 8 (uuid_source (S (drawn w))) ++ ".pdf") = Some d ->
                        exists out, number_from 0 position start_from pgs = Ok out
                                    /\ PdfWriter_write (mkWriter out None) = Ok d)
                  (fun _ _ => True) w) as Hwp
    end.
    { wp_run; [ intros d [= <-]; eauto | done.. ]. }
    pose proof (proj1 (wp_spec _ _ _ _) Hwp _ _ Hrun) as Hpost. cbn in Hpost.
    destruct (Hpost _ Hfile) as (out & Hnum & Hw).
    exists out. apply Hloop in Hnum. tauto.
  - intros (out & Hlen & Hall & Hw).
    assert (number_from 0 position start_from pgs = Ok out) as Hnum by (apply Hloop; tauto).
    match goal with
    | |- exists w', ?m w = (Return ?r, w') /\ _ =>
        destruct (wp_returns m (fun a w' => a = r /\ fs w' !! (OUTPUT_DIR, "numbered_" ++ PyStr.take 8 (uuid_source (S (drawn w))) ++ ".pdf") = Some data) w)
          as (a & w' & Hrun & -> & Hfs); [ | by exists w' ]
    end.
    wp_run. done.
Qed.

End Page_numbers.

Lemma page_numbers_overlay_witness :
  exists w',
    @add_page_numbers Toy.host Toy.codec (mkUpload "book.pdf" Toy.doc_AB) "bottom-right" 5
      Toy.empty_world
    = (Return (FileResponse (OUTPUT_DIR, "numbered_1fedcba9.pdf") "numbered_1fedcba9.pdf"
                 "application/pdf"), w')
    /\ fs w' !! (OUTPUT_DIR, "numbered_1fedcba9.pdf")
       = Some [Byte.x00; Byte.x41; Byte.x35; Byte.x0a; Byte.x42; Byte.x36; Byte.x0a].
Proof.
  apply (@page_numbers_overlay Toy.host Toy.codec (mkUpload "book.pdf" Toy.doc_AB)
           "bottom-right" 5 Toy.empty_world
           (Toy.mkReader false false [[Byte.x41]; [Byte.x42]]) [[Byte.x41]; [Byte.x42]]);
    try reflexivity.
  exists [[Byte.x41; Byte.x35]; [Byte.x42; Byte.x36]].
  split; [reflexivity|]. split; [|reflexivity].
  intros [|[|i]] pg Hpg; simplify_eq/=.
  - by exists [Byte.x35], [Byte.x41; Byte.x35].
  - by exists [Byte.x36], [Byte.x42; Byte.x36].
Defined.

(** ** The retention scheduler *)

Section Scheduler.

Implicit Types (w : world) (p q : path).

(** The woken coroutine never raises: it deletes the file if it is there. *)
Lemma delete_after_delay_run p w :
  delete_after_delay p w = (Return (), with_fs (delete p (fs w)) w)
  \/ (fs w !! p = None /\ delete_after_delay p w = (Return (), w)).
Proof.
  unfold delete_after_delay, mbind, Py_bind, exists_, unlink. cbn.
  destruct (fs w !! p) as [b|] eqn:Hp.
  - left. rewrite bool_decide_eq_true_2 by eauto. by rewrite Hp.
  - right. split; [done|]. rewrite bool_decide_eq_false_2; [done|].
    by intros [? ?].
Qed.

Lemma delete_after_delay_gone p w :
  fs w !! p = None -> delete_after_delay p w = (Return (), w).
Proof.
  intros Hgone. by destruct (delete_after_delay_run p w) as [Hrun | [_ Hrun]];
    [destruct w; cbn in *; rewrite Hrun, delete_id|].
Qed.

Lemma delete_after_delay_world p w :
  (delete_after_delay p w).1 = Return ()
  /\ fs (delete_after_delay p w).2 = delete p (fs w)
  /\ timers (delete_after_delay p w).2 = timers w
  /\ clock (delete_after_delay p w).2 = clock w.
Proof.
  destruct (delete_after_delay_run p w) as [-> | [Hnone ->]]; [done|].
  cbn. by rewrite delete_id.
Qed.

Lemma run_tasks_world ts : forall w,
  Forall (fun o => o = Return ()) (run_tasks ts w).1
  /\ timers (run_tasks ts w).2 = timers w
  /\ clock (run_tasks ts w).2 = clock w
  /\ forall q, fs (run_tasks ts w).2 !! q
               = if bool_decide (q ∈ ts.*2) then None else fs w !! q.
Proof.
  induction ts as [|[d p] ts IH]; intros w; cbn [run_tasks].
  - split_and!; [by constructor | done | done |].
    intros q. by rewrite bool_decide_eq_false_2 by set_solver.
  - destruct (delete_after_delay_world p w) as (Ho & Hfs & Htm & Hck).
    destruct (delete_after_delay p w) as [o w1]. cbn in *. subst o.
    specialize (IH w1). destruct (run_tasks ts w1) as [os w2]. cbn in *.
    destruct IH as (Hos & Htm2 & Hck2 & Hfs2).
    split_and!; [by constructor | congruence | congruence |].
    intros q. rewrite Hfs2, Hfs.
    destruct (decide (q = p)) as [->|Hne].
    + rewrite (bool_decide_eq_true_2 (p ∈ p :: ts.*2)) by set_solver.
      case_bool_decide; [done|]. apply lookup_delete_eq.
    + rewrite lookup_delete_ne by done.
      rewrite (bool_decide_ext (q ∈ p :: ts.*2) (q ∈ ts.*2)); [done|].
      rewrite elem_of_cons. tauto.
Qed.

Lemma step_no_error ev w : Forall (fun o => o = Return ()) (step ev w).1.
Proof.
  destruct ev; cbn; try by constructor.
  unfold elapse. apply run_tasks_world.
Qed.

Lemma run_no_error evs : forall w, Forall (fun o => o = Return ()) (run evs w).1.
Proof.
  induction evs as [|ev evs IH]; intros w; cbn [run]; [by constructor|].
  pose proof (step_no_error ev w) as Hstep.
  destruct (step ev w) as [os1 w1]. specialize (IH w1).
  destruct (run evs w1) as [os2 w2]. cbn in *. by apply Forall_app.
Qed.

Lemma step_pending_or_gone p due ev w :
  (forall data, ev <> Persist p data) ->
  pending_or_gone p due w -> pending_or_gone p due (step ev w).2.
Proof.
  intros Hev Hinv. destruct ev as [dt | q | q d | q data]; cbn.
  - unfold elapse.
    pose proof (run_tasks_world
      (filter (fun t => is_due (clock w + Z.of_nat dt) t = true) (timers w))
      (mkWorld (fs w)
         (filter (fun t => is_due (clock w + Z.of_nat dt) t = false) (timers w))
         (clock w + Z.of_nat dt) (drawn w))) as (_ & Htm & Hck & Hfs).
    unfold pending_or_gone. rewrite Hfs, Htm, Hck. cbn.
    destruct Hinv as [Hgone | [Hin Hle]].
    + left. by case_bool_decide.
    + destruct (is_due (clock w + Z.of_nat dt) (due, p)) eqn:Hdue.
      * left. rewrite bool_decide_eq_true_2; [done|].
        apply list_elem_of_fmap. exists (due, p). split; [done|].
        by apply list_elem_of_filter.
      * right. split; [by apply list_elem_of_filter|].
        unfold is_due in Hdue. cbn in Hdue. lia.
  - destruct Hinv as [Hgone | Hpend]; [left | ].
    + cbn. destruct (decide (q = p)) as [->|]; [apply lookup_delete_eq|].
      by rewrite lookup_delete_ne.
    + destruct (decide (q = p)) as [->|].
      * left. apply lookup_delete_eq.
      * destruct (fs w !! p) eqn:Hp; [right; done|left; cbn; by rewrite lookup_delete_ne].
  - destruct Hinv as [Hgone | [Hin Hle]]; [by left | right].
    split; [|done]. set_solver.
  - destruct Hinv as [Hgone | Hpend]; [left | by right].
    cbn. rewrite lookup_insert_ne; [done|]. intros ->. by apply (Hev data).
Qed.

Lemma run_pending_or_gone p due evs : forall w,
  (forall data, Persist p data ∉ evs) ->
  pending_or_gone p due w -> pending_or_gone p due (run evs w).2.
Proof.
  induction evs as [|ev evs IH]; intros w Hevs Hinv; cbn [run]; [done|].
  pose proof (step_pending_or_gone p due ev w) as Hstep.
  destruct (step ev w) as [os1 w1]. cbn in Hstep.
  specialize (IH w1). destruct (run evs w1) as [os2 w2]. cbn in *.
  apply IH.
  - intros data Hin. apply (Hevs data). by right.
  - apply Hstep; [|done]. intros data ->. apply (Hevs data). by left.
Qed.

(** Every handler registers its artifact with the default delay. *)
Lemma cleanup_file_default p w :
  timers (cleanup_file p default_delay w).2 = (timers w ++ [(clock w + 300, p)])%list.
Proof. done. Qed.

(** C4. Register [p] with [delay] and let anything happen afterwards
    except writing [p] again: once the clock is past the delay, [p] does not
    exist; none of the scheduled deletions raises, also not when [p] was
    removed before its time; and a deletion that finds its file gone leaves
    the world as it is. *)
Theorem scheduled_deletion (w : world) (p : path) (delay : Z) (evs : list event) :
  (forall data, Persist p data ∉ evs) ->
  let after := run evs (cleanup_file p delay w).2 in
  (clock w + Z.max 0 delay < clock after.2 -> fs after.2 !! p = None)
  /\ Forall (fun o => o = Return ()) after.1
  /\ (forall w', fs w' !! p = None -> delete_after_delay p w' = (Return (), w')).
Proof.
  intros Hevs after. split; [|split].
  - intros Hpast.
    destruct (run_pending_or_gone p (clock w + Z.max 0 delay) evs
                (cleanup_file p delay w).2 Hevs) as [Hgone | [_ Hle]]; [|done|].
    + right. cbn. split; [set_solver | lia].
    + subst after. lia.
  - apply run_no_error.
  - apply delete_after_delay_gone.
Qed.

End Scheduler.

Lemma scheduled_deletion_witness :
  let p := (OUTPUT_DIR, "merged_0fedcba9.pdf") in
  let w := mkWorld {[ p := Toy.doc_A ]} [] 0 0 in
  let after := run [Elapse 100; Remove p; Elapse 250] (cleanup_file p 300 w).2 in
  (clock w + Z.max 0 300 < clock after.2 -> fs after.2 !! p = None)
  /\ Forall (fun o => o = Return ()) after.1
  /\ (forall w', fs w' !! p = None -> delete_after_delay p w' = (Return (), w')).
Proof.
  intros p w.
  apply (scheduled_deletion w p 300 [Elapse 100; Remove p; Elapse 250]).
  intros data Hin. repeat (apply elem_of_cons in Hin as [Hin|Hin]; [discriminate|]).
  by apply elem_of_nil in Hin.
Defined.

(** ** Page ranges *)

Section Page_ranges.

Context `{HH : !Host, CC : !Codec}.









End Page_ranges.



(** ** PDF to images *)

Section Pdf_to_images.

Context `{HH : !Host, CC : !Codec}.

(** C8, as the code has it.  For a document with at least one page and a
    format the image library can save, the answer is one image file named
    after the requested format: the blank white 612 x 792 placeholder
    [Image.new('RGB', (612, 792), color='white')], whatever the document
    shows. *)
Theorem pdf_to_images_placeholder (file : UploadFile) (format : string) (dpi : Z)
    (w : world) (rd : reader) (pg : page) (pgs : list page) (data : bytes) :
  let temp_path := temp_path_of (uuid_source (drawn w)) file in
  let output_path :=
    (OUTPUT_DIR, PyStr.take 8 (uuid_source (S (drawn w))) ++ "_" ++ "page_1." ++ format) in
  is_pdf (filename file) = true ->
  can_open temp_path = true ->
  can_open output_path = true ->
  PdfReader (content file) = Ok rd ->
  reader_pages rd = Ok (pg :: pgs) ->
  Image_save (mkImage "RGB" (612, 792) "white") format = Ok data ->
  exists w',
    pdf_to_images file format dpi w
    = (Return (FileResponse output_path ("page_1." ++ format) ("image/" ++ format)), w')
    /\ fs w' !! output_path = Some data.
Proof.
  intros temp_path output_path Hpdf Hopen Hout Hrd Hpgs Hsave.
  unfold pdf_to_images. rewrite Hpdf. cbn [negb].
  match goal with
  | |- exists w', ?m w = (Return ?r, w') /\ _ =>
      destruct (wp_returns m (fun a w' => a = r /\ fs w' !! output_path = Some data) w)
        as (a & w' & Hrun & -> & Hfs); [ | by exists w' ]
  end.
  subst temp_path output_path. unfold placeholder.
  wp_run. done.
Qed.

End Pdf_to_images.

(** C8 as stated fails: two documents whose first pages differ ("A" and
    "B") are answered with the same image, the saved placeholder. *)
Lemma pdf_to_images_ignores_the_page :
  (r ← Toy.parse Toy.doc_A; Toy.pages_of r) = Ok [[Byte.x41]]
  /\ (r ← Toy.parse Toy.doc_B; Toy.pages_of r) = Ok [[Byte.x42]]
  /\ @pdf_to_images Toy.host Toy.codec (mkUpload "a.pdf" Toy.doc_A) "png" 150 Toy.empty_world
     = @pdf_to_images Toy.host Toy.codec (mkUpload "a.pdf" Toy.doc_B) "png" 150 Toy.empty_world
  /\ fs (@pdf_to_images Toy.host Toy.codec (mkUpload "a.pdf" Toy.doc_A) "png" 150
           Toy.empty_world).2 !! (OUTPUT_DIR, "1fedcba9_page_1.png")
     = Some (list_byte_of_string "white.png").
Proof. split_and!; by vm_compute. Qed.

Lemma pdf_to_images_placeholder_witness :
  exists w',
    @pdf_to_images Toy.host Toy.codec (mkUpload "a.pdf" Toy.doc_AB) "png" 150 Toy.empty_world
    = (Return (FileResponse (OUTPUT_DIR, "1fedcba9_page_1.png") "page_1.png" "image/png"), w')
    /\ fs w' !! (OUTPUT_DIR, "1fedcba9_page_1.png")
       = Some (list_byte_of_string "white.png").
Proof.
  apply (@pdf_to_images_placeholder Toy.host Toy.codec (mkUpload "a.pdf" Toy.doc_AB) "png" 150
           Toy.empty_world (Toy.mkReader false false [[Byte.x41]; [Byte.x42]])
           [Byte.x41] [[Byte.x42]]);
    reflexivity.
Defined.

(** ** Staged input *)

Section Staged_input.

Context `{HH : !Host, CC : !Codec}.

(** After staging at [tp], writing artifacts and unlinking [tp], the
    incoming zone is as before, without [tp]. *)
Lemma staged_removed_one (tp : path) (w w' : world) :
  tp.1 = UPLOAD_DIR ->
  (forall name, (UPLOAD_DIR, name) <> tp ->
     fs w' !! (UPLOAD_DIR, name) = fs w !! (UPLOAD_DIR, name)) ->
  fs w' !! tp = None ->
  staged_removed [tp] w w'.
Proof.
  intros Hzone Hother Hgone name. case_bool_decide as Hin.
  - apply list_elem_of_singleton in Hin. by rewrite Hin.
  - apply Hother. intros Heq. apply Hin. rewrite Heq. by apply list_elem_of_singleton.
Qed.

Ltac staged_done :=
  apply staged_removed_one;
  [ done
  | intros name Hname; cbn [fs]; by simplify_map_eq
  | cbn [fs]; by simplify_map_eq ].

(** From a run that returned to the postcondition of its [wp]. *)
Ltac from_wp Hrun Q :=
  match type of Hrun with
  | ?m ?w = (Return _, _) =>
      let Hwp := fresh "Hwp" in
      assert (wp m Q (fun _ _ => True) w) as Hwp;
      [ | exact (proj1 (wp_spec _ _ _ _) Hwp _ _ Hrun) ]
  end.

Lemma rotate_pdf_staged (file : UploadFile) angle pages w r w' :
  rotate_pdf file angle pages w = (Return r, w') ->
  staged_removed [temp_path_of (uuid_source (drawn w)) file] w w'.
Proof.
  intros Hrun.
  from_wp Hrun (fun (_ : Response) w' =>
                  staged_removed [temp_path_of (uuid_source (drawn w)) file] w w').
  unfold rotate_pdf.
  destruct (negb (is_pdf (filename file))); [by apply wp_raise|].
  destruct (negb (bool_decide (angle ∈ allowed_angles))); [by apply wp_raise|].
  wp_run; try done. staged_done.
Qed.

Lemma pdf_to_images_staged (file : UploadFile) format dpi w r w' :
  pdf_to_images file format dpi w = (Return r, w') ->
  staged_removed [temp_path_of (uuid_source (drawn w)) file] w w'.
Proof.
  intros Hrun.
  from_wp Hrun (fun (_ : Response) w' =>
                  staged_removed [temp_path_of (uuid_source (drawn w)) file] w w').
  unfold pdf_to_images.
  destruct (negb (is_pdf (filename file))); [by apply wp_raise|].
  wp_run; try done. destruct a0 as [|pg pgs]; wp_run; try done. staged_done.
Qed.

Lemma protect_pdf_staged (file : UploadFile) password w r w' :
  protect_pdf file password w = (Return r, w') ->
  staged_removed [temp_path_of (uuid_source (drawn w)) file] w w'.
Proof.
  intros Hrun.
  from_wp Hrun (fun (_ : Response) w' =>
                  staged_removed [temp_path_of (uuid_source (drawn w)) file] w w').
  unfold protect_pdf.
  destruct (negb (is_pdf (filename file))); [by apply wp_raise|].
  destruct (weak_password password); [by apply wp_raise|].
  wp_run; try done. staged_done.
Qed.

Lemma unlock_pdf_staged (file : UploadFile) password w r w' :
  unlock_pdf file password w = (Return r, w') ->
  staged_removed [temp_path_of (uuid_source (drawn w)) file] w w'.
Proof.
  intros Hrun.
  from_wp Hrun (fun (_ : Response) w' =>
                  staged_removed [temp_path_of (uuid_source (drawn w)) file] w w').
  unfold unlock_pdf.
  destruct (negb (is_pdf (filename file))); [by apply wp_raise|].
  wp_run; try done. unfold unlock_reader.
  destruct (is_encrypted a).
  - wp_run; try done. destruct a0 as [[] rd']; wp_run; try done; staged_done.
  - wp_run; try done. staged_done.
Qed.

Lemma add_page_numbers_staged (file : UploadFile) position start_from w r w' :
  add_page_numbers file position start_from w = (Return r, w') ->
  staged_removed [temp_path_of (uuid_source (drawn w)) file] w w'.
Proof.
  intros Hrun.
  from_wp Hrun (fun (_ : Response) w' =>
                  staged_removed [temp_path_of (uuid_source (drawn w)) file] w w').
  unfold add_page_numbers.
  destruct (negb (is_pdf (filename file))); [by apply wp_raise|].
  wp_run; try done. staged_done.
Qed.

Lemma compress_pdf_staged (file : UploadFile) quality w r w' :
  compress_pdf file quality w = (Return r, w') ->
  staged_removed [temp_path_of (uuid_source (drawn w)) file] w w'.
Proof.
  intros Hrun.
  from_wp Hrun (fun (_ : Response) w' =>
                  staged_removed [temp_path_of (uuid_source (drawn w)) file] w w').
  unfold compress_pdf.
  destruct (negb (is_pdf (filename file))); [by apply wp_raise|].
  wp_run; try done.
  destruct (Z.of_nat (length (content file)) =? 0); wp_run; [done|]. staged_done.
Qed.

Lemma add_watermark_staged (file : UploadFile) text opacity position w r w' :
  add_watermark file text opacity position w = (Return r, w') ->
  staged_removed [temp_path_of (uuid_source (drawn w)) file] w w'.
Proof.
  intros Hrun.
  from_wp Hrun (fun (_ : Response) w' =>
                  staged_removed [temp_path_of (uuid_source (drawn w)) file] w w').
  unfold add_watermark.
  destruct (negb (is_pdf (filename file))); [by apply wp_raise|].
  wp_run; try done. staged_done.
Qed.

Lemma extract_text_staged (file : UploadFile) w r w' :
  extract_text file w = (Return r, w') ->
  staged_removed [temp_path_of (uuid_source (drawn w)) file] w w'.
Proof.
  intros Hrun.
  from_wp Hrun (fun (_ : Response) w' =>
                  staged_removed [temp_path_of (uuid_source (drawn w)) file] w w').
  unfold extract_text.
  destruct (negb (is_pdf (filename file))); [by apply wp_raise|].
  wp_run; try done. staged_done.
Qed.

Lemma get_metadata_staged (file : UploadFile) w r w' :
  get_metadata file w = (Return r, w') ->
  staged_removed [temp_path_of (uuid_source (drawn w)) file] w w'.
Proof.
  intros Hrun.
  from_wp Hrun (fun (_ : Response) w' =>
                  staged_removed [temp_path_of (uuid_source (drawn w)) file] w w').
  unfold get_metadata.
  destruct (negb (is_pdf (filename file))); [by apply wp_raise|].
  wp_run; try done. staged_done.
Qed.

(** The loop of [split_pdf] writes into the generated zone only. *)
Lemma split_loop_incoming (pgs : list page) (nums : list Z) (acc : list path)
    (f0 : gmap (zone * string) bytes)
    (Q : list path -> world -> Prop) w :
  (forall name, fs w !! (UPLOAD_DIR, name) = f0 !! (UPLOAD_DIR, name)) ->
  (forall acc' w', (forall name, fs w' !! (UPLOAD_DIR, name) = f0 !! (UPLOAD_DIR, name)) ->
                   Q acc' w') ->
  wp (for_each nums acc (split_one pgs)) Q (fun _ _ => True) w.
Proof.
  intros Hw HQ.
  apply (wp_for_each
           (fun _ w' => forall name, fs w' !! (UPLOAD_DIR, name) = f0 !! (UPLOAD_DIR, name)));
    [done | | done].
  clear. intros acc n w Hw. unfold split_one.
  destruct (valid_page _ n); [|by apply wp_ret].
  destruct (pgs !! Z.to_nat n); [|by apply wp_raise].
  wp_run; try done; intros name; rewrite <- Hw; by simplify_map_eq.
Qed.

Lemma split_pdf_staged (file : UploadFile) pages w r w' :
  split_pdf file pages w = (Return r, w') ->
  staged_removed [temp_path_of (uuid_source (drawn w)) file] w w'.
Proof.
  intros Hrun.
  from_wp Hrun (fun (_ : Response) w' =>
                  staged_removed [temp_path_of (uuid_source (drawn w)) file] w w').
  unfold split_pdf.
  destruct (negb (is_pdf (filename file))); [by apply wp_raise|].
  wp_run; try done.
  apply (split_loop_incoming _ _ _
           (<[temp_path_of (uuid_source (drawn w)) file := content file]> (fs w))).
  { intros name. cbn [fs]. by rewrite insert_insert_eq. }
  intros acc' w1 Hw1. wp_run.
  - destruct acc'; wp_run; try done.
    all: apply staged_removed_one; [done | | cbn [fs with_fs]; by simplify_map_eq].
    all: intros name Hname; cbn [fs with_fs]; rewrite lookup_delete_ne by done;
      rewrite Hw1; by simplify_map_eq.
  - done.
Qed.

(** The first loop of [merge_pdfs] stages one file per turn, under the
    names of [temp_paths]. *)
Lemma merge_loop_staged (files : list UploadFile) : forall m tfs w,
  wp (for_each files (m, tfs) merge_one)
     (fun acc w' =>
        acc.2 = (tfs ++ temp_paths (drawn w) files)%list
        /\ forall p, p ∉ temp_paths (drawn w) files -> fs w' !! p = fs w !! p)
     (fun _ _ => True) w.
Proof.
  induction files as [|file files IH]; intros m tfs w; cbn [for_each temp_paths].
  - apply wp_ret. split; [by rewrite app_nil_r | done].
  - apply wp_bind. unfold merge_one.
    destruct (negb (is_pdf (filename file))); [by apply wp_raise|].
    wp_run; try done.
    eapply wp_mono; [ | | apply IH]; [|done].
    intros [m' tfs'] w' [Htfs Hfs]. cbn in *. split.
    + by rewrite Htfs, <- app_assoc.
    + intros p Hp. rewrite Hfs by set_solver.
      rewrite insert_insert_eq, lookup_insert_ne; [done|]. set_solver.
Qed.

(** The second loop of [merge_pdfs]. *)
Lemma unlink_loop (ps : list path) : forall w,
  wp (for_each ps () (fun _ temp_file => unlink temp_file))
     (fun _ w' =>
        timers w' = timers w
        /\ forall q, fs w' !! q = if bool_decide (q ∈ ps) then None else fs w !! q)
     (fun _ _ => True) w.
Proof.
  induction ps as [|p ps IH]; intros w; cbn [for_each].
  - apply wp_ret. split; [done|]. intros q. by rewrite bool_decide_eq_false_2 by set_solver.
  - wp_run; [|done].
    eapply wp_mono; [ | | apply IH]; [|done].
    intros _ w' [Htm Hfs]. cbn in *. split; [done|].
    intros q. rewrite Hfs. destruct (decide (q = p)) as [->|Hne].
    + rewrite (bool_decide_eq_true_2 (p ∈ p :: ps)) by (by left).
      case_bool_decide; [done | apply lookup_delete_eq].
    + rewrite lookup_delete_ne by done.
      rewrite (bool_decide_ext (q ∈ p :: ps) (q ∈ ps)); [done|].
      rewrite elem_of_cons. tauto.
Qed.

Lemma merge_pdfs_staged (files : list UploadFile) w r w' :
  merge_pdfs files w = (Return r, w') ->
  staged_removed (temp_paths (drawn w) files) w w'.
Proof.
  intros Hrun.
  from_wp Hrun (fun (_ : Response) w' =>
                  staged_removed (temp_paths (drawn w) files) w w').
  unfold merge_pdfs.
  destruct (length files <? 2)%nat; [by apply wp_raise|].
  wp_run.
  eapply wp_mono; [ | | apply merge_loop_staged]; [|by intros; wp_run].
  intros [m tfs] w1 [Htfs Hfs]. cbn in Htfs, Hfs. subst tfs. cbn beta iota.
  wp_run; try done.
  eapply wp_mono; [ | | apply unlink_loop]; [|by intros; wp_run].
  intros _ w2 [_ Hfs2]. cbn [fs] in Hfs2. wp_run.
  intros name. cbn [fs]. rewrite Hfs2.
  case_bool_decide as Hin; [done|].
  rewrite insert_insert_eq, lookup_insert_ne by done. by apply Hfs.
Qed.

(** The loop of [images_to_pdf] stages one file per turn, as the first
    loop of [merge_pdfs] does. *)
Lemma images_loop_staged (files : list UploadFile) : forall imgs tfs w,
  wp (for_each files (imgs, tfs) images_one)
     (fun acc w' =>
        acc.2 = (tfs ++ temp_paths (drawn w) files)%list
        /\ forall p, p ∉ temp_paths (drawn w) files -> fs w' !! p = fs w !! p)
     (fun _ _ => True) w.
Proof.
  induction files as [|file files IH]; intros imgs tfs w; cbn [for_each temp_paths].
  - apply wp_ret. split; [by rewrite app_nil_r | done].
  - apply wp_bind. unfold images_one.
    destruct (negb (bool_decide (_ ∈ valid_extensions))); [by apply wp_raise|].
    wp_run; try done.
    destruct (String.eqb (picture_mode a) "RGBA"); wp_run; try done.
    all: eapply wp_mono; [ | | apply IH]; [|done].
    all: intros [imgs' tfs'] w' [Htfs Hfs]; cbn in *; split;
      [ by rewrite Htfs, <- app_assoc
      | intros p Hp; rewrite Hfs by set_solver;
        rewrite insert_insert_eq, lookup_insert_ne; [done|]; set_solver ].
Qed.

Lemma images_to_pdf_staged (files : list UploadFile) w r w' :
  images_to_pdf files w = (Return r, w') ->
  staged_removed (temp_paths (drawn w) files) w w'.
Proof.
  intros Hrun.
  from_wp Hrun (fun (_ : Response) w' =>
                  staged_removed (temp_paths (drawn w) files) w w').
  unfold images_to_pdf. wp_run.
  eapply wp_mono; [ | | apply images_loop_staged]; [|by intros; wp_run].
  intros [imgs tfs] w1 [Htfs Hfs]. cbn in Htfs, Hfs. subst tfs. cbn beta iota.
  destruct imgs as [|first_image other_images]; wp_run; try done.
  eapply wp_mono; [ | | apply unlink_loop]; [|by intros; wp_run].
  intros _ w2 [_ Hfs2]. cbn [fs] in Hfs2. wp_run.
  intros name. cbn [fs]. rewrite Hfs2.
  case_bool_decide as Hin; [done|].
  rewrite insert_insert_eq, lookup_insert_ne by done. by apply Hfs.
Qed.

(** C1, as the code has it.  When one of the twelve handlers returns its
    response, the incoming zone is what it was before the request, and the
    names the handler staged its input under hold no file.  (An exception
    raised between staging and [unlink] skips the [unlink].) *)
Theorem staged_input_removed_on_success :
  (forall files w r w',
     merge_pdfs files w = (Return r, w') ->
     staged_removed (temp_paths (drawn w) files) w w')
  /\ (forall file pages w r w',
        split_pdf file pages w = (Return r, w') ->
        staged_removed [temp_path_of (uuid_source (drawn w)) file] w w')
  /\ (forall file angle pages w r w',
        rotate_pdf file angle pages w = (Return r, w') ->
        staged_removed [temp_path_of (uuid_source (drawn w)) file] w w')
  /\ (forall file format dpi w r w',
        pdf_to_images file format dpi w = (Return r, w') ->
        staged_removed [temp_path_of (uuid_source (drawn w)) file] w w')
  /\ (forall file password w r w',
        protect_pdf file password w = (Return r, w') ->
        staged_removed [temp_path_of (uuid_source (drawn w)) file] w w')
  /\ (forall file password w r w',
        unlock_pdf file password w = (Return r, w') ->
        staged_removed [temp_path_of (uuid_source (drawn w)) file] w w')
  /\ (forall file position start_from w r w',
        add_page_numbers file position start_from w = (Return r, w') ->
        staged_removed [temp_path_of (uuid_source (drawn w)) file] w w')
  /\ (forall file quality w r w',
        compress_pdf file quality w = (Return r, w') ->
        staged_removed [temp_path_of (uuid_source (drawn w)) file] w w')
  /\ (forall files w r w',
        images_to_pdf files w = (Return r, w') ->
        staged_removed (temp_paths (drawn w) files) w w')
  /\ (forall file text opacity position w r w',
        add_watermark file text opacity position w = (Return r, w') ->
        staged_removed [temp_path_of (uuid_source (drawn w)) file] w w')
  /\ (forall file w r w',
        extract_text file w = (Return r, w') ->
        staged_removed [temp_path_of (uuid_source (drawn w)) file] w w')
  /\ (forall file w r w',
        get_metadata file w = (Return r, w') ->
        staged_removed [temp_path_of (uuid_source (drawn w)) file] w w').
Proof.
  split_and!.
  - apply merge_pdfs_staged.
  - apply split_pdf_staged.
  - apply rotate_pdf_staged.
  - apply pdf_to_images_staged.
  - apply protect_pdf_staged.
  - apply unlock_pdf_staged.
  - apply add_page_numbers_staged.
  - apply compress_pdf_staged.
  - apply images_to_pdf_staged.
  - apply add_watermark_staged.
  - apply extract_text_staged.
  - apply get_metadata_staged.
Qed.

End Staged_input.

(** C1 as stated fails on the error exits.  When the library raises on the
    second file of a merge, both staged files stay in the incoming zone;
    when the second file fails the file-type check, the first one stays;
    when the library cannot read the file given to split, it stays. *)
Lemma staged_input_left_on_error :
  (let run := @merge_pdfs Toy.host Toy.codec
                [mkUpload "a.pdf" Toy.doc_A; mkUpload "b.pdf" Toy.junk] Toy.empty_world in
   run.1 = Raise (HTTPException 500 "EOF marker not found")
   /\ fs run.2 !! (UPLOAD_DIR, "0fedcba9-8765-4321-0fed-cba987654321_a.pdf") = Some Toy.doc_A
   /\ fs run.2 !! (UPLOAD_DIR, "1fedcba9-8765-4321-0fed-cba987654321_b.pdf") = Some Toy.junk)
  /\ (let run := @merge_pdfs Toy.host Toy.codec
                   [mkUpload "a.pdf" Toy.doc_A; mkUpload "b.txt" Toy.doc_B] Toy.empty_world in
      run.1 = Raise (HTTPException 500 "400: File b.txt is not a PDF")
      /\ fs run.2 !! (UPLOAD_DIR, "0fedcba9-8765-4321-0fed-cba987654321_a.pdf") = Some Toy.doc_A)
  /\ (let run := @split_pdf Toy.host Toy.codec (mkUpload "c.pdf" Toy.junk) "" Toy.empty_world in
      run.1 = Raise (HTTPException 500 "EOF marker not found")
      /\ fs run.2 !! (UPLOAD_DIR, "0fedcba9-8765-4321-0fed-cba987654321_c.pdf") = Some Toy.junk).
Proof. split_and!; by vm_compute. Qed.

Lemma staged_input_removed_on_success_witness :
  let files := [mkUpload "a.pdf" Toy.doc_A; mkUpload "b.pdf" Toy.doc_B] in
  staged_removed
    [(UPLOAD_DIR, "0fedcba9-8765-4321-0fed-cba987654321_a.pdf");
     (UPLOAD_DIR, "1fedcba9-8765-4321-0fed-cba987654321_b.pdf")]
    Toy.empty_world (@merge_pdfs Toy.host Toy.codec files Toy.empty_world).2
  /\ staged_removed [(UPLOAD_DIR, "0fedcba9-8765-4321-0fed-cba987654321_c.pdf")]
       Toy.empty_world
       (@split_pdf Toy.host Toy.codec (mkUpload "c.pdf" Toy.doc_AB) "2" Toy.empty_world).2.
Proof.
  intros files.
  destruct (@staged_input_removed_on_success Toy.host Toy.codec) as (Hmerge & Hsplit & _).
  split.
  - eapply (Hmerge files Toy.empty_world). vm_compute. reflexivity.
  - eapply (Hsplit (mkUpload "c.pdf" Toy.doc_AB) "2" Toy.empty_world). vm_compute. reflexivity.
Defined.

(** ** Status classes *)

Section Status.

Context `{HH : !Host, CC : !Codec}.













End Status.



(** * Further properties of the handlers *)

(** ** The page-range parsers *)

Section Range_parsers.

Lemma split_nonempty sep s : PyStr.split sep s <> [].
Proof.
  destruct s as [|c s]; cbn [PyStr.split]; [done|].
  destruct (Ascii.eqb c sep); [done|]. by destruct (PyStr.split sep s).
Qed.

Lemma split_app_sep sep s1 s2 :
  PyStr.split sep (s1 ++ String sep s2) = (PyStr.split sep s1 ++ PyStr.split sep s2)%list.
Proof.
  induction s1 as [|c s1 IH].
  - change ("" ++ String sep s2) with (String sep s2).
    cbn [PyStr.split]. by rewrite Ascii.eqb_refl.
  - change (String c s1 ++ String sep s2) with (String c (s1 ++ String sep s2)).
    cbn [PyStr.split]. rewrite IH. destruct (Ascii.eqb c sep); [done|].
    pose proof (split_nonempty sep s1). by destruct (PyStr.split sep s1).
Qed.

(** The accumulator of [split_parts] is only ever extended. *)
Lemma split_parts_acc total parts : forall acc,
  split_parts total acc parts
  = match split_parts total [] parts with
    | Ok nums => Ok (acc ++ nums)%list
    | Fail c m => Fail c m
    end.
Proof.
  induction parts as [|part parts IH]; intros acc; cbn [split_parts].
  - by rewrite app_nil_r.
  - unfold split_part.
    destruct (PyStr.contains "-" part).
    + destruct (unpack_range part) as [[start end_]|]; cbn; [|done].
      rewrite (IH (acc ++ _)%list), (IH (range _ _)).
      destruct (split_parts total [] parts); [|done]. by rewrite app_assoc.
    + destruct (int_ part) as [n|]; cbn; [|done].
      rewrite (IH (acc ++ _)%list), (IH [_]).
      destruct (split_parts total [] parts); [|done]. by rewrite <- app_assoc.
Qed.

Lemma split_parts_app total parts1 parts2 nums1 nums2 :
  split_parts total [] parts1 = Ok nums1 ->
  split_parts total [] parts2 = Ok nums2 ->
  split_parts total [] (parts1 ++ parts2) = Ok (nums1 ++ nums2)%list.
Proof.
  revert nums1. induction parts1 as [|part parts1 IH]; intros nums1 H1 H2; cbn in *.
  - by injection H1 as <-.
  - destruct (split_part total [] part) as [nums0|] eqn:Hpart; [|done]. cbn in *.
    rewrite split_parts_acc in H1. rewrite split_parts_acc.
    destruct (split_parts total [] parts1) as [rest|] eqn:Hrest; [|done].
    injection H1 as <-. rewrite (IH rest eq_refl H2). by rewrite app_assoc.
Qed.

Lemma split_page_nums_parts pages total :
  pages <> "" ->
  split_page_nums pages total = split_parts total [] (PyStr.split "," pages).
Proof. by destruct pages. Qed.

(** X1. The page expression is read from left to right: the pages of
    "s1,s2" are the pages of [s1] followed by the pages of [s2], in that
    order and with repetitions kept. *)
Theorem split_page_nums_comma (s1 s2 : string) (total : Z) (nums1 nums2 : list Z) :
  s1 <> "" -> s2 <> "" ->
  split_page_nums s1 total = Ok nums1 ->
  split_page_nums s2 total = Ok nums2 ->
  split_page_nums (s1 ++ "," ++ s2) total = Ok (nums1 ++ nums2)%list.
Proof.
  intros Hs1 Hs2 H1 H2.
  rewrite split_page_nums_parts in H1, H2 by done.
  rewrite split_page_nums_parts by (by destruct s1).
  change (s1 ++ "," ++ s2) with (s1 ++ String "," s2).
  rewrite split_app_sep. by apply split_parts_app.
Qed.

(** The two copies of the parser do the same, on a list and on a set. *)
Lemma rotate_parts_split_parts total parts : forall acc (sel : gset Z),
  sel = list_to_set acc ->
  rotate_parts total sel parts
  = match split_parts total acc parts with
    | Ok nums => Ok (list_to_set nums)
    | Fail c m => Fail c m
    end.
Proof.
  induction parts as [|part parts IH]; intros acc sel ->; cbn [rotate_parts split_parts];
    [done|].
  unfold rotate_part, split_part.
  destruct (PyStr.contains "-" part).
  - destruct (unpack_range part) as [[start end_]|]; cbn; [|done].
    apply IH. by rewrite list_to_set_app_L.
  - destruct (int_ part) as [n|]; cbn; [|done].
    apply IH. rewrite list_to_set_app_L. cbn. by rewrite union_empty_r_L.
Qed.

Lemma rotate_selection_split (pages : string) (total : Z) :
  pages <> "" ->
  PyStr.lower pages <> "all" ->
  rotate_selection pages total
  = match split_page_nums pages total with
    | Ok nums => Ok (list_to_set nums)
    | Fail c m => Fail c m
    end.
Proof.
  intros Hne Hall. rewrite split_page_nums_parts by done.
  unfold rotate_selection. rewrite (proj2 (String.eqb_neq _ _) Hall).
  by apply rotate_parts_split_parts.
Qed.

(** X2. Except for the two ways of saying "all pages" (the empty string in
    [split_pdf], the word "all" in [rotate_pdf]), the parser of [rotate_pdf]
    selects exactly the pages the parser of [split_pdf] lists, and fails with
    the same error when that one fails. *)
Theorem parsers_agree (pages : string) (total : Z) :
  pages <> "" ->
  PyStr.lower pages <> "all" ->
  rotate_selection pages total
  = match split_page_nums pages total with
    | Ok nums => Ok (list_to_set nums)
    | Fail c m => Fail c m
    end.
Proof. apply rotate_selection_split. Qed.

(** X3. A page expression that starts with "-" (a negative page number,
    or a range without a start) never parses: the part before the dash is
    empty and [int('')] raises. *)
Theorem leading_dash_fails (rest : string) (total : Z) :
  split_page_nums ("-" ++ rest) total
  = Fail "ValueError" "invalid literal for int() with base 10: ''"
  /\ rotate_selection ("-" ++ rest) total
     = Fail "ValueError" "invalid literal for int() with base 10: ''".
Proof.
  assert (split_page_nums ("-" ++ rest) total
          = Fail "ValueError" "invalid literal for int() with base 10: ''") as Hsplit.
  { rewrite split_page_nums_parts by done.
    change ("-" ++ rest) with (String "-" rest). cbn [PyStr.split].
    change (Ascii.eqb "-" ",") with false. cbv iota.
    pose proof (split_nonempty "," rest) as Hne.
    destruct (PyStr.split "," rest) as [|h t]; [done|].
    cbn [split_parts]. unfold split_part.
    assert (PyStr.contains "-" (String "-" h) = true) as ->.
    { cbn [PyStr.contains String.prefix].
      destruct (ascii_dec "-" "-"); [by destruct h | done]. }
    unfold unpack_range. cbn [PyStr.split]. rewrite Ascii.eqb_refl.
    pose proof (split_nonempty "-" h) as Hne'.
    destruct (PyStr.split "-" h) as [|x [|y ys]]; done. }
  split; [done|].
  rewrite rotate_selection_split, Hsplit; [done..|].
  cbn. unfold PyStr.lower_char. cbn. discriminate.
Qed.

End Range_parsers.

Lemma split_page_nums_comma_witness :
  split_page_nums ("1-3" ++ "," ++ "5") 10 = Ok ([0; 1; 2] ++ [4])%list.
Proof. apply split_page_nums_comma; try discriminate; reflexivity. Defined.

Lemma parsers_agree_witness :
  rotate_selection "2,2,9-12" 10
  = match split_page_nums "2,2,9-12" 10 with
    | Ok nums => Ok (list_to_set nums)
    | Fail c m => Fail c m
    end.
Proof. apply parsers_agree; discriminate. Defined.

(** ** Artifacts *)

(** From a run that returned to the postcondition of its [wp]. *)
Ltac returned Hrun Q :=
  match type of Hrun with
  | ?m ?w = (Return _, _) =>
      let Hwp := fresh "Hwp" in
      assert (wp m Q (fun _ _ => True) w) as Hwp;
      [ | exact (proj1 (wp_spec _ _ _ _) Hwp _ _ Hrun) ]
  end.

Ltac artifact_done :=
  eexists; split_and!;
  [ done
  | done
  | cbn [fs with_fs]; by simplify_map_eq
  | cbn [timers]; apply elem_of_app; right; by apply list_elem_of_singleton
  | done ].

Section Artifacts.

Context `{HH : !Host, CC : !Codec}.

Lemma wp_conj {A} (m : Py A) (Q1 Q2 : A -> world -> Prop) (X1 X2 : exn -> world -> Prop) w :
  wp m Q1 X1 w -> wp m Q2 X2 w ->
  wp m (fun a w' => Q1 a w' /\ Q2 a w') (fun e w' => X1 e w' /\ X2 e w') w.
Proof. unfold wp. by destruct (m w) as [[a|e] w']. Qed.

Lemma temp_paths_zone n files p : p ∈ temp_paths n files -> p.1 = UPLOAD_DIR.
Proof.
  revert n. induction files as [|file files IH]; intros n Hp; cbn in Hp.
  - by apply elem_of_nil in Hp.
  - apply elem_of_cons in Hp as [-> | Hp]; [done | by apply (IH (S n))].
Qed.

(** The loops that stage and unlink leave the clock and the timers alone. *)
Lemma merge_loop_clock (files : list UploadFile) acc w :
  wp (for_each files acc merge_one)
     (fun _ w' => clock w' = clock w /\ timers w' = timers w) (fun _ _ => True) w.
Proof.
  apply (wp_for_each (fun _ w' => clock w' = clock w /\ timers w' = timers w)); [done| |done].
  clear. intros [m tfs] file w' Hw'. unfold merge_one.
  destruct (negb (is_pdf (filename file))); [by apply wp_raise|].
  wp_run; done.
Qed.

Lemma images_loop_clock (files : list UploadFile) acc w :
  wp (for_each files acc images_one)
     (fun _ w' => clock w' = clock w /\ timers w' = timers w) (fun _ _ => True) w.
Proof.
  apply (wp_for_each (fun _ w' => clock w' = clock w /\ timers w' = timers w)); [done| |done].
  clear. intros [imgs tfs] file w' Hw'. unfold images_one.
  destruct (negb (bool_decide (_ ∈ valid_extensions))); [by apply wp_raise|].
  wp_run; try done.
  destruct (String.eqb (picture_mode a) "RGBA"); wp_run; done.
Qed.

Lemma unlink_loop_clock (ps : list path) w :
  wp (for_each ps () (fun _ temp_file => unlink temp_file))
     (fun _ w' => clock w' = clock w /\ timers w' = timers w) (fun _ _ => True) w.
Proof.
  apply (wp_for_each (fun _ w' => clock w' = clock w /\ timers w' = timers w)); [done| |done].
  clear. intros [] p w' Hw'. wp_run; done.
Qed.

Lemma rotate_pdf_artifact (file : UploadFile) angle pages w r w' :
  rotate_pdf file angle pages w = (Return r, w') -> artifact_registered w w' r.
Proof.
  intros Hrun. returned Hrun (fun r w' => artifact_registered w w' r).
  unfold rotate_pdf.
  destruct (negb (is_pdf (filename file))); [by apply wp_raise|].
  destruct (negb (bool_decide (angle ∈ allowed_angles))); [by apply wp_raise|].
  wp_run; try done. artifact_done.
Qed.

Lemma pdf_to_images_artifact (file : UploadFile) format dpi w r w' :
  pdf_to_images file format dpi w = (Return r, w') -> artifact_registered w w' r.
Proof.
  intros Hrun. returned Hrun (fun r w' => artifact_registered w w' r).
  unfold pdf_to_images.
  destruct (negb (is_pdf (filename file))); [by apply wp_raise|].
  wp_run; try done. destruct a0 as [|pg pgs]; wp_run; try done. artifact_done.
Qed.

Lemma protect_pdf_artifact (file : UploadFile) password w r w' :
  protect_pdf file password w = (Return r, w') -> artifact_registered w w' r.
Proof.
  intros Hrun. returned Hrun (fun r w' => artifact_registered w w' r).
  unfold protect_pdf.
  destruct (negb (is_pdf (filename file))); [by apply wp_raise|].
  destruct (weak_password password); [by apply wp_raise|].
  wp_run; try done. artifact_done.
Qed.

Lemma unlock_pdf_artifact (file : UploadFile) password w r w' :
  unlock_pdf file password w = (Return r, w') -> artifact_registered w w' r.
Proof.
  intros Hrun. returned Hrun (fun r w' => artifact_registered w w' r).
  unfold unlock_pdf.
  destruct (negb (is_pdf (filename file))); [by apply wp_raise|].
  wp_run; try done. unfold unlock_reader.
  destruct (is_encrypted a).
  - wp_run; try done. destruct a0 as [[] rd']; wp_run; try done; artifact_done.
  - wp_run; try done. artifact_done.
Qed.

Lemma add_page_numbers_artifact (file : UploadFile) position start_from w r w' :
  add_page_numbers file position start_from w = (Return r, w') -> artifact_registered w w' r.
Proof.
  intros Hrun. returned Hrun (fun r w' => artifact_registered w w' r).
  unfold add_page_numbers.
  destruct (negb (is_pdf (filename file))); [by apply wp_raise|].
  wp_run; try done. artifact_done.
Qed.

Lemma add_watermark_artifact (file : UploadFile) text opacity position w r w' :
  add_watermark file text opacity position w = (Return r, w') -> artifact_registered w w' r.
Proof.
  intros Hrun. returned Hrun (fun r w' => artifact_registered w w' r).
  unfold add_watermark.
  destruct (negb (is_pdf (filename file))); [by apply wp_raise|].
  wp_run; try done. artifact_done.
Qed.

Lemma compress_pdf_artifact (file : UploadFile) quality w r w' :
  compress_pdf file quality w = (Return r, w') -> artifact_registered w w' r.
Proof.
  intros Hrun. returned Hrun (fun r w' => artifact_registered w w' r).
  unfold compress_pdf.
  destruct (negb (is_pdf (filename file))); [by apply wp_raise|].
  wp_run; try done.
  destruct (Z.of_nat (length (content file)) =? 0); wp_run; [done|]. artifact_done.
Qed.

Lemma merge_pdfs_artifact (files : list UploadFile) w r w' :
  merge_pdfs files w = (Return r, w') -> artifact_registered w w' r.
Proof.
  intros Hrun. returned Hrun (fun r w' => artifact_registered w w' r).
  unfold merge_pdfs.
  destruct (length files <? 2)%nat; [by apply wp_raise|].
  wp_run.
  eapply wp_mono; [ | | apply (wp_conj _ _ _ _ _ _ (merge_loop_staged files _ _ w)
                                 (merge_loop_clock files _ w))];
    [|by intros; wp_run].
  intros [m tfs] w1 [[Htfs _] [Hck Htm]]. cbn in Htfs. subst tfs. cbn beta iota.
  wp_run; try done.
  eapply wp_mono; [ | | apply (wp_conj _ _ _ _ _ _ (unlink_loop _ _) (unlink_loop_clock _ _))];
    [|by intros; wp_run].
  intros _ w2 [[_ Hfs2] [Hck2 Htm2]]. cbn [fs timers clock] in *. wp_run.
  eexists. split_and!; [done | done | | | cbn; congruence].
  - cbn [fs]. rewrite Hfs2. rewrite bool_decide_eq_false_2.
    + by simplify_map_eq.
    + intros Hin. by apply temp_paths_zone in Hin.
  - cbn [timers clock]. rewrite Htm2, Hck2, Hck. apply elem_of_app. right.
    by apply list_elem_of_singleton.
Qed.

Lemma images_to_pdf_artifact (files : list UploadFile) w r w' :
  images_to_pdf files w = (Return r, w') -> artifact_registered w w' r.
Proof.
  intros Hrun. returned Hrun (fun r w' => artifact_registered w w' r).
  unfold images_to_pdf. wp_run.
  eapply wp_mono; [ | | apply (wp_conj _ _ _ _ _ _ (images_loop_staged files _ _ w)
                                 (images_loop_clock files _ w))];
    [|by intros; wp_run].
  intros [imgs tfs] w1 [[Htfs _] [Hck Htm]]. cbn in Htfs. subst tfs. cbn beta iota.
  destruct imgs as [|first_image other_images]; wp_run; try done.
  eapply wp_mono; [ | | apply (wp_conj _ _ _ _ _ _ (unlink_loop _ _) (unlink_loop_clock _ _))];
    [|by intros; wp_run].
  intros _ w2 [[_ Hfs2] [Hck2 Htm2]]. cbn [fs timers clock] in *. wp_run.
  eexists. split_and!; [done | done | | | cbn; congruence].
  - cbn [fs]. rewrite Hfs2. rewrite bool_decide_eq_false_2.
    + by simplify_map_eq.
    + intros Hin. by apply temp_paths_zone in Hin.
  - cbn [timers clock]. rewrite Htm2, Hck2, Hck. apply elem_of_app. right.
    by apply list_elem_of_singleton.
Qed.

(** Every artifact the loop of [split_pdf] has written exists and is
    scheduled. *)
Lemma split_loop_artifacts (pgs : list page) (nums : list Z) (acc : list path) c w
    (Q : list path -> world -> Prop) :
  clock w = c ->
  (forall p, p ∈ acc ->
     p.1 = OUTPUT_DIR /\ is_Some (fs w !! p) /\ (c + 300, p) ∈ timers w) ->
  (forall acc' w',
     clock w' = c ->
     (forall p, p ∈ acc' ->
        p.1 = OUTPUT_DIR /\ is_Some (fs w' !! p) /\ (c + 300, p) ∈ timers w') ->
     Q acc' w') ->
  wp (for_each nums acc (split_one pgs)) Q (fun _ _ => True) w.
Proof.
  intros Hck Hacc HQ.
  apply (wp_for_each
           (fun acc' w' =>
              clock w' = c
              /\ forall p, p ∈ acc' ->
                   p.1 = OUTPUT_DIR /\ is_Some (fs w' !! p) /\ (c + 300, p) ∈ timers w'));
    [done | | by intros ? ? [? ?]; apply HQ].
  clear. intros acc n w [Hck Hacc]. unfold split_one.
  destruct (valid_page _ n); [|by apply wp_ret].
  destruct (pgs !! Z.to_nat n); [|by apply wp_raise].
  wp_run; try done. split; [done|].
  intros q Hq. apply elem_of_app in Hq as [Hq | Hq].
  - destruct (Hacc q Hq) as (Hz & Hfs & Htm). split_and!; [done | | ].
    + cbn [fs]. rewrite insert_insert_eq.
      destruct (decide (q = (OUTPUT_DIR, "page_" ++ PyStr.str (n + 1) ++ "_"
                                          ++ PyStr.take 6 (uuid_source (drawn w)) ++ ".pdf")))
        as [->|Hne]; [by simplify_map_eq | by rewrite lookup_insert_ne].
    + cbn [timers]. apply elem_of_app. by left.
  - apply list_elem_of_singleton in Hq as ->. split_and!; [done | | ].
    + cbn [fs]. by simplify_map_eq.
    + cbn [timers clock]. apply elem_of_app. right.
      by apply list_elem_of_singleton.
Qed.

Lemma split_pdf_artifact (file : UploadFile) pages w r w' :
  split_pdf file pages w = (Return r, w') -> artifact_registered w w' r.
Proof.
  intros Hrun. returned Hrun (fun r w' => artifact_registered w w' r).
  unfold split_pdf.
  destruct (negb (is_pdf (filename file))); [by apply wp_raise|].
  wp_run; try done.
  apply (split_loop_artifacts _ _ _ (clock w)); [done | by intros p Hp%elem_of_nil |].
  intros acc' w1 Hck Hacc. wp_run; [|done].
  destruct acc' as [|first rest]; wp_run; [done|].
  destruct (Hacc first) as (Hz & Hfs & Htm); [by left|].
  exists first. split_and!; [done | done | | done | done].
  cbn [fs with_fs]. rewrite lookup_delete_ne; [done|]. intros Heq.
  by rewrite <- Heq in Hz.
Qed.

(** X4. Whenever one of the ten handlers that answer with a file returns
    its response, the file it names lies in the generated zone, exists, and
    has a deletion scheduled 300 seconds after the request. *)
Theorem artifacts_registered :
  (forall files w r w', merge_pdfs files w = (Return r, w') -> artifact_registered w w' r)
  /\ (forall file pages w r w',
        split_pdf file pages w = (Return r, w') -> artifact_registered w w' r)
  /\ (forall file quality w r w',
        compress_pdf file quality w = (Return r, w') -> artifact_registered w w' r)
  /\ (forall file angle pages w r w',
        rotate_pdf file angle pages w = (Return r, w') -> artifact_registered w w' r)
  /\ (forall file format dpi w r w',
        pdf_to_images file format dpi w = (Return r, w') -> artifact_registered w w' r)
  /\ (forall files w r w',
        images_to_pdf files w = (Return r, w') -> artifact_registered w w' r)
  /\ (forall file password w r w',
        protect_pdf file password w = (Return r, w') -> artifact_registered w w' r)
  /\ (forall file password w r w',
        unlock_pdf file password w = (Return r, w') -> artifact_registered w w' r)
  /\ (forall file text opacity position w r w',
        add_watermark file text opacity position w = (Return r, w') ->
        artifact_registered w w' r)
  /\ (forall file position start_from w r w',
        add_page_numbers file position start_from w = (Return r, w') ->
        artifact_registered w w' r).
Proof.
  split_and!.
  - apply merge_pdfs_artifact.
  - apply split_pdf_artifact.
  - apply compress_pdf_artifact.
  - apply rotate_pdf_artifact.
  - apply pdf_to_images_artifact.
  - apply images_to_pdf_artifact.
  - apply protect_pdf_artifact.
  - apply unlock_pdf_artifact.
  - apply add_watermark_artifact.
  - apply add_page_numbers_artifact.
Qed.

End Artifacts.

Lemma artifacts_registered_witness :
  artifact_registered Toy.empty_world
    (@merge_pdfs Toy.host Toy.codec
       [mkUpload "a.pdf" Toy.doc_A; mkUpload "b.pdf" Toy.doc_B] Toy.empty_world).2
    (FileResponse (OUTPUT_DIR, "merged_2fedcba9.pdf") "merged_2fedcba9.pdf" "application/pdf")
  /\ artifact_registered Toy.empty_world
       (@split_pdf Toy.host Toy.codec (mkUpload "c.pdf" Toy.doc_AB) "2,1" Toy.empty_world).2
       (FileResponse (OUTPUT_DIR, "page_2_1fedcb.pdf") "split_c.pdf" "application/pdf").
Proof.
  destruct (@artifacts_registered Toy.host Toy.codec) as (Hmerge & Hsplit & _).
  split.
  - eapply (Hmerge [mkUpload "a.pdf" Toy.doc_A; mkUpload "b.pdf" Toy.doc_B] Toy.empty_world).
    vm_compute. reflexivity.
  - eapply (Hsplit (mkUpload "c.pdf" Toy.doc_AB) "2,1" Toy.empty_world).
    vm_compute. reflexivity.
Defined.

(** ** Artifacts and the scheduler *)

Section Retention.

Implicit Types (w : world) (p q : path).

(** X5. An artifact a handler has answered with does not exist any more
    once the clock is past 300 seconds after the request, whatever happens
    in between, as long as nothing writes its name again. *)
Theorem artifact_expires (w w' : world) (r : Response) (p : path) (evs : list event) :
  artifact_registered w w' r ->
  response_file r = Some p ->
  (forall data, Persist p data ∉ evs) ->
  clock w + 300 < clock (run evs w').2 ->
  fs (run evs w').2 !! p = None.
Proof.
  intros (p' & Hfile & _ & _ & Htimer & Hclock) Hp Hevs Hpast.
  rewrite Hfile in Hp. injection Hp as ->.
  destruct (run_pending_or_gone p (clock w + 300) evs w' Hevs) as [Hgone | [_ Hle]];
    [ | done | lia].
  right. split; [done | lia].
Qed.

Lemma run_tasks_clock ts w : clock (run_tasks ts w).2 = clock w.
Proof. by destruct (run_tasks_world ts w) as (_ & _ & Hck & _). Qed.

Lemma step_clock ev w : clock w <= clock (step ev w).2.
Proof.
  destruct ev as [dt | q | q d | q data]; cbn; try lia.
  unfold elapse. rewrite run_tasks_clock. cbn. lia.
Qed.

Lemma run_clock evs : forall w, clock w <= clock (run evs w).2.
Proof.
  induction evs as [|ev evs IH]; intros w; cbn [run]; [cbn; lia|].
  pose proof (step_clock ev w) as Hstep.
  destruct (step ev w) as [os1 w1]. specialize (IH w1).
  destruct (run evs w1) as [os2 w2]. cbn in *. lia.
Qed.

(** One step that ends before [due] and leaves [p] alone keeps the file,
    when no timer for [p] is set earlier than [due]. *)
Lemma step_keeps p due ev w :
  leaves_alone p ev ->
  (forall d, (d, p) ∈ timers w -> due <= d) ->
  clock (step ev w).2 < due ->
  fs (step ev w).2 !! p = fs w !! p
  /\ (forall d, (d, p) ∈ timers (step ev w).2 -> due <= d).
Proof.
  intros Hev Htm Hck. destruct ev as [dt | q | q d | q data]; cbn in *.
  - unfold elapse in *.
    destruct (run_tasks_world
      (filter (fun t => is_due (clock w + Z.of_nat dt) t = true) (timers w))
      (mkWorld (fs w)
         (filter (fun t => is_due (clock w + Z.of_nat dt) t = false) (timers w))
         (clock w + Z.of_nat dt) (drawn w))) as (_ & Htm' & Hck' & Hfs').
    rewrite Hck' in Hck. cbn in Hck. rewrite Hfs', Htm'. cbn. split.
    + rewrite bool_decide_eq_false_2; [done|].
      intros Hin. apply list_elem_of_fmap in Hin as ([d q] & Hq & Hin). cbn in Hq. subst q.
      apply list_elem_of_filter in Hin as [Hdue Hin].
      apply Htm in Hin. unfold is_due in Hdue. cbn in Hdue. lia.
    + intros d Hin. apply list_elem_of_filter in Hin as [_ Hin]. by apply Htm.
  - split; [by rewrite lookup_delete_ne | done].
  - split; [done|]. intros d' Hin. apply elem_of_app in Hin as [Hin | Hin]; [by apply Htm|].
    apply list_elem_of_singleton in Hin. congruence.
  - split; [by rewrite lookup_insert_ne | done].
Qed.

Lemma run_keeps p due evs : forall w,
  Forall (leaves_alone p) evs ->
  (forall d, (d, p) ∈ timers w -> due <= d) ->
  clock (run evs w).2 < due ->
  fs (run evs w).2 !! p = fs w !! p.
Proof.
  induction evs as [|ev evs IH]; intros w Hevs Htm Hck; cbn [run] in *; [done|].
  apply Forall_cons in Hevs as [Hev Hevs].
  pose proof (step_keeps p due ev w Hev Htm) as Hstep.
  destruct (step ev w) as [os1 w1]. specialize (IH w1 Hevs).
  pose proof (run_clock evs w1) as Hmono.
  destruct (run evs w1) as [os2 w2]. cbn in *.
  destruct Hstep as [Hfs Htm1]; [lia|]. rewrite <- Hfs. apply IH; [done | lia].
Qed.

(** X6. The scheduler does not delete early: register a file that has no
    timer yet; as long as the clock has not reached the delay and nobody
    else removes, rewrites or registers that file, it holds what it held. *)
Theorem kept_until_due (w : world) (p : path) (delay : Z) (evs : list event) :
  (forall d, (d, p) ∉ timers w) ->
  Forall (leaves_alone p) evs ->
  let after := run evs (cleanup_file p delay w).2 in
  clock after.2 < clock w + Z.max 0 delay ->
  fs after.2 !! p = fs w !! p.
Proof.
  intros Hfresh Hevs after Hck.
  apply (run_keeps p (clock w + Z.max 0 delay) evs (cleanup_file p delay w).2 Hevs); [|done].
  intros d Hin. cbn in Hin. apply elem_of_app in Hin as [Hin | Hin].
  - by apply Hfresh in Hin.
  - apply list_elem_of_singleton in Hin. injection Hin as ->. lia.
Qed.

End Retention.

Lemma artifact_expires_witness :
  let w' := (@unlock_pdf Toy.host Toy.codec (mkUpload "plain.pdf" Toy.doc_AB) "x"
               Toy.empty_world).2 in
  fs (run [Elapse 200; Elapse 101] w').2 !! (OUTPUT_DIR, "unlocked_1fedcba9.pdf") = None.
Proof.
  intros w'.
  apply (artifact_expires Toy.empty_world w'
           (FileResponse (OUTPUT_DIR, "unlocked_1fedcba9.pdf") "unlocked_1fedcba9.pdf"
              "application/pdf")).
  - exists (OUTPUT_DIR, "unlocked_1fedcba9.pdf").
    split_and!; [done | done | vm_compute; by eexists | | by vm_compute].
    vm_compute. by left.
  - done.
  - intros data Hin. repeat (apply elem_of_cons in Hin as [Hin|Hin]; [discriminate|]).
    by apply elem_of_nil in Hin.
  - by vm_compute.
Defined.

Lemma kept_until_due_witness :
  let p := (OUTPUT_DIR, "merged_0fedcba9.pdf") in
  let w := mkWorld {[ p := Toy.doc_A ]} [] 0 0 in
  fs (run [Elapse 100; Register (OUTPUT_DIR, "other.pdf") 300; Elapse 199]
        (cleanup_file p 300 w).2).2 !! p = Some Toy.doc_A.
Proof.
  intros p w.
  assert (forall d, (d, p) ∉ timers w) as Hfresh
    by (intros d Hin; by apply elem_of_nil in Hin).
  assert (Forall (leaves_alone p)
            [Elapse 100; Register (OUTPUT_DIR, "other.pdf") 300; Elapse 199]) as Hquiet
    by (repeat constructor; cbn; discriminate).
  exact (kept_until_due w p 300 _ Hfresh Hquiet ltac:(by vm_compute)).
Defined.

(** ** What the handlers write *)

(** A run that returns, with a postcondition on the response and the world. *)
Ltac returns_with Q :=
  match goal with
  | |- exists w', ?m ?w = (Return ?r, w') /\ _ =>
      let a := fresh "a" in
      let w' := fresh "w'" in
      let Hrun := fresh "Hrun" in
      let Hq := fresh "Hq" in
      destruct (wp_returns m (fun a w' => a = r /\ Q w') w)
        as (a & w' & Hrun & -> & Hq); [ | by exists w' ]
  end.

Section Written.

Context `{HH : !Host, CC : !Codec}.

Lemma long_is_strong password :
  (4 <= String.length password)%nat -> weak_password password = false.
Proof.
  intros Hlen. unfold weak_password. apply orb_false_iff. split.
  - apply String.eqb_neq. intros ->. cbn in Hlen. lia.
  - apply Nat.ltb_ge. lia.
Qed.

(** X7. [protect_pdf] with a password of at least 4 characters answers
    with the document the library writes for the pages of the input,
    encrypted with exactly that password. *)
Theorem protect_encrypts (file : UploadFile) (password : string) (w : world)
    (rd : reader) (pgs : list page) (data : bytes) :
  let temp_path := temp_path_of (uuid_source (drawn w)) file in
  let output_filename := "protected_" ++ PyStr.take 8 (uuid_source (S (drawn w))) ++ ".pdf" in
  is_pdf (filename file) = true ->
  (4 <= String.length password)%nat ->
  can_open temp_path = true ->
  can_open (OUTPUT_DIR, output_filename) = true ->
  PdfReader (content file) = Ok rd ->
  reader_pages rd = Ok pgs ->
  PdfWriter_write (mkWriter pgs (Some password)) = Ok data ->
  exists w',
    protect_pdf file password w
    = (Return (FileResponse (OUTPUT_DIR, output_filename) output_filename "application/pdf"), w')
    /\ fs w' !! (OUTPUT_DIR, output_filename) = Some data.
Proof.
  intros temp_path output_filename Hpdf Hlen Hopen Hout Hrd Hpgs Hdata.
  unfold protect_pdf. rewrite Hpdf, (long_is_strong _ Hlen). cbn [negb].
  returns_with (fun w' => fs w' !! (OUTPUT_DIR, output_filename) = Some data).
  subst temp_path output_filename. wp_run. done.
Qed.

(** X8. [unlock_pdf] on an encrypted document, with a password the
    library accepts as user or owner password, answers with the pages of the
    decrypted document written without any password. *)
Theorem unlock_decrypts (file : UploadFile) (password : string) (w : world)
    (rd rd' : reader) (verdict : PasswordType) (pgs : list page) (data : bytes) :
  let temp_path := temp_path_of (uuid_source (drawn w)) file in
  let output_filename := "unlocked_" ++ PyStr.take 8 (uuid_source (S (drawn w))) ++ ".pdf" in
  is_pdf (filename file) = true ->
  can_open temp_path = true ->
  can_open (OUTPUT_DIR, output_filename) = true ->
  PdfReader (content file) = Ok rd ->
  is_encrypted rd = true ->
  reader_decrypt rd password = Ok (verdict, rd') ->
  verdict <> NOT_DECRYPTED ->
  reader_pages rd' = Ok pgs ->
  PdfWriter_write (mkWriter pgs None) = Ok data ->
  exists w',
    unlock_pdf file password w
    = (Return (FileResponse (OUTPUT_DIR, output_filename) output_filename "application/pdf"), w')
    /\ fs w' !! (OUTPUT_DIR, output_filename) = Some data.
Proof.
  intros temp_path output_filename Hpdf Hopen Hout Hrd Henc Hdec Hverdict Hpgs Hdata.
  unfold unlock_pdf. rewrite Hpdf. cbn [negb].
  returns_with (fun w' => fs w' !! (OUTPUT_DIR, output_filename) = Some data).
  subst temp_path output_filename.
  wp_run. unfold unlock_reader. rewrite Henc. wp_run.
  destruct verdict; [done | wp_run; done..].
Qed.

(** The loop of [rotate_pdf] succeeds exactly when every rotation does;
    the page at index [i + k] is rotated if that index is selected and
    handed on as it is otherwise. *)
Lemma rotate_from_spec angle (sel : gset Z) (pgs : list page) : forall i out,
  rotate_from i angle sel pgs = Ok out <->
  length out = length pgs
  /\ forall (k : nat) pg, pgs !! k = Some pg ->
       exists pg', out !! k = Some pg'
                   /\ if decide (i + Z.of_nat k ∈ sel) then page_rotate pg angle = Ok pg'
                      else pg' = pg.
Proof.
  induction pgs as [|pg0 pgs IH]; intros i out; cbn [rotate_from].
  - split.
    + intros [= <-]. split; [done|]. intros k pg Hk. by rewrite lookup_nil in Hk.
    + intros [Hlen _]. destruct out; [done | discriminate].
  - split.
    + intros Hrun.
      destruct (if decide (i ∈ sel) then page_rotate pg0 angle else Ok pg0)
        as [pg0'|] eqn:Hhead; [|discriminate].
      cbn in Hrun.
      destruct (rotate_from (i + 1) angle sel pgs) as [rest|] eqn:Hrest; [|discriminate].
      cbn in Hrun. injection Hrun as <-.
      apply IH in Hrest as [Hlen Hall].
      split; [simpl; by rewrite Hlen|].
      intros [|k] pg Hk; simpl in Hk.
      * injection Hk as <-. exists pg0'. split; [done|].
        rewrite Z.add_0_r. destruct (decide (i ∈ sel)); congruence.
      * destruct (Hall k pg Hk) as (pg' & Hout & Hrot).
        exists pg'. split; [done|].
        by replace (i + Z.of_nat (S k)) with (i + 1 + Z.of_nat k) by lia.
    + intros [Hlen Hall].
      destruct out as [|pg0' rest]; [discriminate|].
      destruct (Hall 0%nat pg0 eq_refl) as (pg' & Hout & Hrot).
      rewrite Z.add_0_r in Hrot. injection Hout as ->.
      assert ((if decide (i ∈ sel) then page_rotate pg0 angle else Ok pg0) = Ok pg') as ->.
      { destruct (decide (i ∈ sel)); congruence. }
      cbn.
      assert (rotate_from (i + 1) angle sel pgs = Ok rest) as ->.
      { apply IH. split; [simpl in Hlen; lia|].
        intros k pg Hk. destruct (Hall (S k) pg Hk) as (pg'' & Ho & Hr).
        exists pg''. split; [done|].
        by replace (i + 1 + Z.of_nat k) with (i + Z.of_nat (S k)) by lia. }
      done.
Qed.

(** X9. [rotate_pdf] answers with an artifact exactly when the rotations
    and the final write succeed; the artifact has as many pages as the
    input, page [i] rotated by [angle] if [i] is among the selected indices
    and unchanged otherwise. *)
Theorem rotate_selected_pages (file : UploadFile) (angle : Z) (pages : string) (w : world)
    (rd : reader) (pgs : list page) (sel : gset Z) (data : bytes) :
  let temp_path := temp_path_of (uuid_source (drawn w)) file in
  let output_filename := "rotated_" ++ PyStr.take 8 (uuid_source (S (drawn w))) ++ ".pdf" in
  is_pdf (filename file) = true ->
  In angle [90; 180; 270; -90; -180; -270] ->
  can_open temp_path = true ->
  can_open (OUTPUT_DIR, output_filename) = true ->
  PdfReader (content file) = Ok rd ->
  reader_pages rd = Ok pgs ->
  rotate_selection pages (Z.of_nat (length pgs)) = Ok sel ->
  (exists w',
     rotate_pdf file angle pages w
     = (Return (FileResponse (OUTPUT_DIR, output_filename) output_filename "application/pdf"), w')
     /\ fs w' !! (OUTPUT_DIR, output_filename) = Some data)
  <->
  (exists out : list page,
     length out = length pgs
     /\ (forall (i : nat) pg, pgs !! i = Some pg ->
           exists pg', out !! i = Some pg'
                       /\ if decide (Z.of_nat i ∈ sel) then page_rotate pg angle = Ok pg'
                          else pg' = pg)
     /\ PdfWriter_write (mkWriter out None) = Ok data).
Proof.
  intros temp_path output_filename Hpdf Hangle Hopen Hout Hrd Hpgs Hsel.
  assert (forall out,
            (length out = length pgs
             /\ (forall (i : nat) pg, pgs !! i = Some pg ->
                   exists pg', out !! i = Some pg'
                               /\ if decide (Z.of_nat i ∈ sel)
                                  then page_rotate pg angle = Ok pg' else pg' = pg))
            <-> rotate_from 0 angle sel pgs = Ok out) as Hloop.
  { intros out. symmetry. apply (rotate_from_spec angle sel pgs 0 out). }
  unfold rotate_pdf. rewrite Hpdf. cbn [negb].
  rewrite bool_decide_eq_true_2 by (by apply list_elem_of_In). cbn [negb].
  subst temp_path output_filename.
  split.
  - intros (w' & Hrun & Hfile).
    match type of Hrun with
    | ?m w = _ =>
        assert (wp m (fun _ w' => forall d,
                        fs w' !! (OUTPUT_DIR, "rotated_" ++ PyStr.take 8 (uuid_source (S (drawn w))) ++ ".pdf") = Some d ->
                        exists out, rotate_from 0 angle sel pgs = Ok out
                                    /\ PdfWriter_write (mkWriter out None) = Ok d)
                  (fun _ _ => True) w) as Hwp
    end.
    { wp_run; [ intros d [= <-]; eauto | done.. ]. }
    pose proof (proj1 (wp_spec _ _ _ _) Hwp _ _ Hrun) as Hpost. cbn in Hpost.
    destruct (Hpost _ Hfile) as (out & Hnum & Hw).
    exists out. apply Hloop in Hnum. tauto.
  - intros (out & Hlen & Hall & Hw).
    assert (rotate_from 0 angle sel pgs = Ok out) as Hnum by (apply Hloop; tauto).
    returns_with (fun w' => fs w' !! (OUTPUT_DIR, "rotated_" ++ PyStr.take 8 (uuid_source (S (drawn w))) ++ ".pdf") = Some data).
    wp_run. done.
Qed.

End Written.

Lemma protect_encrypts_witness :
  exists w',
    @protect_pdf Toy.host Toy.codec (mkUpload "plain.pdf" Toy.doc_AB) "hunter2" Toy.empty_world
    = (Return (FileResponse (OUTPUT_DIR, "protected_1fedcba9.pdf") "protected_1fedcba9.pdf"
                 "application/pdf"), w')
    /\ fs w' !! (OUTPUT_DIR, "protected_1fedcba9.pdf")
       = Some [Byte.x01; Byte.x41; Byte.x0a; Byte.x42; Byte.x0a].
Proof.
  apply (@protect_encrypts Toy.host Toy.codec (mkUpload "plain.pdf" Toy.doc_AB) "hunter2"
           Toy.empty_world (Toy.mkReader false false [[Byte.x41]; [Byte.x42]])
           [[Byte.x41]; [Byte.x42]]);
    try reflexivity.
  cbn. lia.
Defined.

Lemma unlock_decrypts_witness :
  exists w',
    @unlock_pdf Toy.host Toy.codec (mkUpload "locked.pdf" Toy.doc_locked) "sesame"
      Toy.empty_world
    = (Return (FileResponse (OUTPUT_DIR, "unlocked_1fedcba9.pdf") "unlocked_1fedcba9.pdf"
                 "application/pdf"), w')
    /\ fs w' !! (OUTPUT_DIR, "unlocked_1fedcba9.pdf") = Some Toy.doc_A.
Proof.
  apply (@unlock_decrypts Toy.host Toy.codec (mkUpload "locked.pdf" Toy.doc_locked) "sesame"
           Toy.empty_world (Toy.mkReader true true [[Byte.x41]])
           (Toy.mkReader true false [[Byte.x41]]) OWNER_PASSWORD [[Byte.x41]]);
    try reflexivity.
  discriminate.
Defined.

Lemma rotate_selected_pages_witness :
  exists w',
    @rotate_pdf Toy.host Toy.codec (mkUpload "scan.pdf" Toy.doc_AB) 90 "2" Toy.empty_world
    = (Return (FileResponse (OUTPUT_DIR, "rotated_1fedcba9.pdf") "rotated_1fedcba9.pdf"
                 "application/pdf"), w')
    /\ fs w' !! (OUTPUT_DIR, "rotated_1fedcba9.pdf")
       = Some [Byte.x00; Byte.x41; Byte.x0a; Byte.x42; Byte.x39; Byte.x30; Byte.x0a].
Proof.
  apply (@rotate_selected_pages Toy.host Toy.codec (mkUpload "scan.pdf" Toy.doc_AB) 90 "2"
           Toy.empty_world (Toy.mkReader false false [[Byte.x41]; [Byte.x42]])
           [[Byte.x41]; [Byte.x42]] {[ 1 ]});
    try reflexivity; try (cbn; tauto); try (by vm_compute).
  exists [[Byte.x41]; [Byte.x42; Byte.x39; Byte.x30]].
  split; [reflexivity|]. split; [|reflexivity].
  intros [|[|i]] pg Hpg; simplify_eq/=.
  - exists [Byte.x41]. split; [done|]. by vm_compute.
  - exists [Byte.x42; Byte.x39; Byte.x30]. split; [done|]. by vm_compute.
Defined.

(** ** Merging *)

Section Merging.

Context `{HH : !Host, CC : !Codec}.

(** The first loop of [merge_pdfs], when every file passes the check, can
    be staged and is accepted by the merger. *)
Lemma merge_loop_total (files : list UploadFile) : forall m0 tfs w m,
  Forall (fun file => is_pdf (filename file) = true) files ->
  Forall (fun p => can_open p = true) (temp_paths (drawn w) files) ->
  append_all m0 files = Ok m ->
  wp (for_each files (m0, tfs) merge_one)
     (fun acc w' =>
        acc = (m, (tfs ++ temp_paths (drawn w) files)%list)
        /\ drawn w' = (drawn w + length files)%nat
        /\ timers w' = timers w /\ clock w' = clock w
        /\ (forall p, p ∉ temp_paths (drawn w) files -> fs w' !! p = fs w !! p)
        /\ (forall p, p ∈ temp_paths (drawn w) files -> is_Some (fs w' !! p)))
     (fun _ _ => False) w.
Proof.
  induction files as [|file files IH]; intros m0 tfs w m Hpdf Hopen Happ;
    cbn [for_each temp_paths append_all] in *.
  - injection Happ as <-. apply wp_ret.
    split_and!; [by rewrite app_nil_r | cbn; lia | done | done | done |].
    intros p Hp. by apply elem_of_nil in Hp.
  - apply Forall_cons in Hpdf as [Hpdf0 Hpdf]. apply Forall_cons in Hopen as [Hopen0 Hopen].
    destruct (PdfMerger_append m0 (content file)) as [m1|] eqn:Hm1; [|done].
    cbn in Happ.
    apply wp_bind. unfold merge_one. rewrite Hpdf0. cbn [negb].
    wp_run.
    eapply wp_mono; [ | | eapply (IH _ _ _ m); [done | done | eassumption]]; [|done].
    intros acc w' (-> & Hdr & Htm & Hck & Hfs & Hsome). cbn in *.
    split_and!; [by rewrite <- app_assoc | lia | done | done | |].
    + intros p Hp. rewrite Hfs by set_solver.
      rewrite insert_insert_eq, lookup_insert_ne; [done|]. set_solver.
    + intros p Hp.
      destruct (decide (p ∈ temp_paths (S (drawn w)) files)) as [Hin|Hout];
        [by apply Hsome|].
      apply elem_of_cons in Hp as [-> | Hp]; [|done].
      rewrite Hfs by done. by simplify_map_eq.
Qed.

(** The second loop of [merge_pdfs], when the staged names are distinct
    and all there. *)
Lemma unlink_loop_total (ps : list path) : forall w,
  NoDup ps ->
  (forall p, p ∈ ps -> is_Some (fs w !! p)) ->
  wp (for_each ps () (fun _ temp_file => unlink temp_file))
     (fun _ w' =>
        (forall q, fs w' !! q = if bool_decide (q ∈ ps) then None else fs w !! q)
        /\ timers w' = timers w /\ clock w' = clock w /\ drawn w' = drawn w)
     (fun _ _ => False) w.
Proof.
  induction ps as [|p ps IH]; intros w Hnd Hsome; cbn [for_each].
  - apply wp_ret. split; [|done]. intros q. by rewrite bool_decide_eq_false_2 by set_solver.
  - apply NoDup_cons in Hnd as [Hp Hnd].
    wp_run.
    + eapply wp_mono; [ | | apply IH]; [ | done | done | ].
      * intros _ w' (Hfs & Htm & Hck & Hdr). cbn in *. split; [|done].
        intros q. rewrite Hfs. destruct (decide (q = p)) as [->|Hne].
        -- rewrite (bool_decide_eq_true_2 (p ∈ p :: ps)) by (by left).
           case_bool_decide; [done | apply lookup_delete_eq].
        -- rewrite lookup_delete_ne by done.
           rewrite (bool_decide_ext (q ∈ p :: ps) (q ∈ ps)); [done|].
           rewrite elem_of_cons. tauto.
      * intros q Hq. cbn [fs with_fs]. rewrite lookup_delete_ne; [apply Hsome; by right|].
        intros ->. done.
    + destruct (Hsome p) as [b Hb]; [by left|]. congruence.
Qed.

(** X10. [merge_pdfs] on two or more PDF uploads that the merger accepts
    answers with what the merger writes after appending the uploads in the
    order they were sent, and none of the staged files is left. *)
Theorem merge_in_upload_order (files : list UploadFile) (w : world) (m : merger)
    (data : bytes) :
  let output_filename :=
    "merged_" ++ PyStr.take 8 (uuid_source (drawn w + length files)) ++ ".pdf" in
  (2 <= length files)%nat ->
  Forall (fun file => is_pdf (filename file) = true) files ->
  Forall (fun p => can_open p = true) (temp_paths (drawn w) files) ->
  NoDup (temp_paths (drawn w) files) ->
  can_open (OUTPUT_DIR, output_filename) = true ->
  append_all PdfMerger_new files = Ok m ->
  PdfMerger_write m = Ok data ->
  exists w',
    merge_pdfs files w
    = (Return (FileResponse (OUTPUT_DIR, output_filename) output_filename "application/pdf"), w')
    /\ fs w' !! (OUTPUT_DIR, output_filename) = Some data
       /\ forall p, p ∈ temp_paths (drawn w) files -> fs w' !! p = None.
Proof.
  intros output_filename Hlen Hpdf Hopen Hnd Hout Happ Hdata.
  unfold merge_pdfs. rewrite (proj2 (Nat.ltb_ge _ _) Hlen).
  returns_with (fun w' => fs w' !! (OUTPUT_DIR, output_filename) = Some data
                          /\ forall p, p ∈ temp_paths (drawn w) files -> fs w' !! p = None).
  subst output_filename. wp_run.
  eapply wp_mono; [ | | apply (merge_loop_total files _ _ w m Hpdf Hopen Happ)]; [|done].
  intros acc w1 (-> & Hdr & Htm & Hck & Hfs & Hsome). cbn beta iota.
  wp_run. rewrite Hdr in *. wp_run.
  eapply wp_mono; [ | | apply unlink_loop_total]; [ | done | done | ].
  - intros _ w2 (Hfs2 & _). cbn [fs with_fs] in Hfs2. wp_run.
    split; [done|]. cbn [fs]. split.
    + rewrite Hfs2. rewrite bool_decide_eq_false_2.
      * by simplify_map_eq.
      * intros Hin. by apply temp_paths_zone in Hin.
    + intros p Hp. rewrite Hfs2. by rewrite bool_decide_eq_true_2.
  - intros p Hp. cbn [fs with_fs]. rewrite insert_insert_eq, lookup_insert_ne.
    + by apply Hsome.
    + intros <-. by apply temp_paths_zone in Hp.
Qed.

End Merging.

Lemma merge_in_upload_order_witness :
  exists w',
    @merge_pdfs Toy.host Toy.codec [mkUpload "b.pdf" Toy.doc_B; mkUpload "a.pdf" Toy.doc_A]
      Toy.empty_world
    = (Return (FileResponse (OUTPUT_DIR, "merged_2fedcba9.pdf") "merged_2fedcba9.pdf"
                 "application/pdf"), w')
    /\ fs w' !! (OUTPUT_DIR, "merged_2fedcba9.pdf")
       = Some [Byte.x00; Byte.x42; Byte.x0a; Byte.x41; Byte.x0a]
       /\ forall p,
            p ∈ @temp_paths Toy.host 0 [mkUpload "b.pdf" Toy.doc_B; mkUpload "a.pdf" Toy.doc_A] ->
            fs w' !! p = None.
Proof.
  apply (@merge_in_upload_order Toy.host Toy.codec
           [mkUpload "b.pdf" Toy.doc_B; mkUpload "a.pdf" Toy.doc_A] Toy.empty_world
           [[Byte.x42]; [Byte.x41]]);
    try reflexivity; try (cbn; lia); try (by repeat constructor).
  apply NoDup_cons. split; [|apply NoDup_singleton].
  intros Hin. apply list_elem_of_singleton in Hin. discriminate.
Defined.

(** ** Splitting *)

Section Splitting.

Context `{HH : !Host, CC : !Codec}.

(** The loop of [split_pdf], when every selected page can be written: one
    artifact and one timer for each page number inside the document, in the
    order of the page numbers. *)
Lemma split_loop_total (pgs : list page) (nums : list Z) : forall (acc : list path) w,
  Forall (fun p => can_open p = true)
    (split_outputs (drawn w) (filter (fun n => 0 <= n < Z.of_nat (length pgs)) nums)) ->
  (forall n pg,
     n ∈ filter (fun n => 0 <= n < Z.of_nat (length pgs)) nums ->
     pgs !! Z.to_nat n = Some pg ->
     exists d, PdfWriter_write (mkWriter [pg] None) = Ok d) ->
  wp (for_each nums acc (split_one pgs))
     (fun acc' w' =>
        let outs :=
          split_outputs (drawn w) (filter (fun n => 0 <= n < Z.of_nat (length pgs)) nums) in
        acc' = (acc ++ outs)%list
        /\ timers w' = (timers w ++ map (fun p => (clock w + 300, p)) outs)%list
        /\ clock w' = clock w
        /\ (forall name, fs w' !! (UPLOAD_DIR, name) = fs w !! (UPLOAD_DIR, name))
        /\ (outs = [] -> fs w' = fs w))
     (fun _ _ => False) w.
Proof.
  induction nums as [|n nums IH]; intros acc w Hopen Hwrite; cbn [for_each].
  - apply wp_ret. cbn. split_and!; try done; by rewrite app_nil_r.
  - rewrite filter_cons in Hopen, Hwrite. rewrite filter_cons.
    apply wp_bind. unfold split_one, valid_page.
    case_decide as Hn.
    + replace ((0 <=? n) && (n <? Z.of_nat (length pgs))) with true
        by (symmetry; apply andb_true_iff; lia).
      destruct (pgs !! Z.to_nat n) as [pg|] eqn:Hpg.
      2:{ apply lookup_ge_None in Hpg. lia. }
      destruct (Hwrite n pg) as [d Hd]; [by left | done |].
      cbn [split_outputs] in Hopen. apply Forall_cons in Hopen as [Hopen0 Hopen].
      wp_run.
      eapply wp_mono; [ | | apply IH]; [ | done | done | ].
      * intros acc' w' (-> & Htm & Hck & Hup & _). cbn in *.
        split_and!.
        -- by rewrite <- app_assoc.
        -- rewrite Htm. by rewrite <- app_assoc.
        -- done.
        -- intros name. rewrite Hup. by simplify_map_eq.
        -- discriminate.
      * intros n' pg' Hn' Hpg'. apply (Hwrite n' pg'); [by right | done].
    + replace ((0 <=? n) && (n <? Z.of_nat (length pgs))) with false
        by (symmetry; apply andb_false_iff; lia).
      wp_run.
      eapply wp_mono; [ | | apply IH; [done | done]]; [|done].
      by intros acc' w' (-> & Htm & Hck & Hup & Hsame).
Qed.





(** X12. When [split_pdf] reads the document and the page expression,
    and no selected page number lies inside the document, it writes no
    artifact and schedules nothing, removes the staged upload, and answers
    500: the 400 it raises inside its [try] block is caught by the general
    [except] clause. *)
Theorem split_no_valid_pages (file : UploadFile) (pages : string) (w : world)
    (rd : reader) (pgs : list page) (nums : list Z) :
  let temp_path := temp_path_of (uuid_source (drawn w)) file in
  is_pdf (filename file) = true ->
  can_open temp_path = true ->
  PdfReader (content file) = Ok rd ->
  reader_pages rd = Ok pgs ->
  split_page_nums pages (Z.of_nat (length pgs)) = Ok nums ->
  filter (fun n => 0 <= n < Z.of_nat (length pgs)) nums = [] ->
  (split_pdf file pages w).1 = Raise (HTTPException 500 "400: No valid pages to split")
  /\ fs (split_pdf file pages w).2 !! temp_path = None
  /\ outputs_untouched w (split_pdf file pages w).2.
Proof.
  intros temp_path Hpdf Hopen Hrd Hpgs Hnums Hfilter.
  apply (wp_post _ (fun o w' =>
           o = Raise (HTTPException 500 "400: No valid pages to split")
           /\ fs w' !! temp_path = None /\ outputs_untouched w w')).
  unfold split_pdf. rewrite Hpdf. cbn [negb]. subst temp_path. wp_run.
  eapply wp_mono; [ | | apply split_loop_total];
    [ | done | by cbn; rewrite Hfilter
      | intros n pg Hn; rewrite Hfilter in Hn; by apply elem_of_nil in Hn ].
  intros acc' w1 (-> & Htm & Hck & Hup & Hsame). cbn [drawn timers clock fs] in *.
  rewrite Hfilter in *. cbn [split_outputs app map] in *.
  specialize (Hsame eq_refl). rewrite app_nil_r in Htm.
  wp_run.
  all: try (exfalso; unfold temp_path_of in *;
            match goal with
            | H : fs _ !! _ = None |- _ => rewrite Hup in H; by simplify_map_eq
            end).
  split; [done|]. split; [cbn [fs with_fs]; first [done | apply lookup_delete_eq]|].
  split; [|done]. intros name. cbn [fs with_fs]. rewrite Hsame. by simplify_map_eq.
Qed.

End Splitting.


Lemma split_no_valid_pages_witness :
  let run := @split_pdf Toy.host Toy.codec (mkUpload "c.pdf" Toy.doc_AB) "7,0" Toy.empty_world in
  run.1 = Raise (HTTPException 500 "400: No valid pages to split")
  /\ fs run.2 !! (UPLOAD_DIR, "0fedcba9-8765-4321-0fed-cba987654321_c.pdf") = None
  /\ outputs_untouched Toy.empty_world run.2.
Proof.
  apply (@split_no_valid_pages Toy.host Toy.codec (mkUpload "c.pdf" Toy.doc_AB) "7,0"
           Toy.empty_world (Toy.mkReader false false [[Byte.x41]; [Byte.x42]])
           [[Byte.x41]; [Byte.x42]] [6; -1]);
    reflexivity.
Defined.

(** ** The handlers that answer with JSON *)

Section Reading.

Context `{HH : !Host, CC : !Codec}.

(** X13. [extract_text] and [get_metadata] never write into the
    generated zone and never schedule a deletion, whatever the upload is and
    however the request ends. *)
Theorem json_handlers_write_nothing (file : UploadFile) (w : world) :
  outputs_untouched w (extract_text file w).2
  /\ outputs_untouched w (get_metadata file w).2.
Proof.
  split.
  - apply (wp_post _ (fun _ w' => outputs_untouched w w')).
    unfold extract_text.
    destruct (negb (is_pdf (filename file))); [by apply wp_raise|].
    wp_run; split; try done; intros name; cbn [fs with_fs]; by simplify_map_eq.
  - apply (wp_post _ (fun _ w' => outputs_untouched w w')).
    unfold get_metadata.
    destruct (negb (is_pdf (filename file))); [by apply wp_raise|].
    wp_run; split; try done; intros name; cbn [fs with_fs]; by simplify_map_eq.
Qed.

Lemma extract_from_spec (pgs : list page) : forall i texts,
  Forall2 (fun pg text => page_extract_text pg = Ok text) pgs texts ->
  extract_from (Z.of_nat i) pgs = Ok (imap (fun k => page_entry (i + k)) texts).
Proof.
  induction pgs as [|pg pgs IH]; intros i texts Hall.
  - by apply Forall2_nil_inv_l in Hall as ->.
  - apply Forall2_cons_inv_l in Hall as (text & texts' & Htext & Hall & ->).
    cbn [extract_from]. rewrite Htext. cbn.
    replace (Z.of_nat i + 1) with (Z.of_nat (S i)) by lia.
    rewrite (IH (S i) texts' Hall). cbn. f_equal. f_equal.
    + unfold page_entry. do 4 f_equal. lia.
    + apply imap_ext. intros k text' _. cbn. by rewrite Nat.add_succ_r.
Qed.

(** X14. When the library reads every page, [extract_text] answers with
    the name of the upload, the number of pages, and one entry per page in
    document order, numbered from 1, with the text of that page; the staged
    upload is removed. *)
Theorem extract_text_pages (file : UploadFile) (w : world) (rd : reader)
    (pgs : list page) (texts : list string) :
  let temp_path := temp_path_of (uuid_source (drawn w)) file in
  is_pdf (filename file) = true ->
  can_open temp_path = true ->
  PdfReader (content file) = Ok rd ->
  reader_pages rd = Ok pgs ->
  Forall2 (fun pg text => page_extract_text pg = Ok text) pgs texts ->
  exists w',
    extract_text file w
    = (Return (JSONResponse
                 (JDict [("filename", JStr (filename file));
                         ("total_pages", JInt (Z.of_nat (length texts)));
                         ("pages",
                          JList (imap (fun i text =>
                                         JDict [("page", JInt (Z.of_nat i + 1));
                                                ("content", JStr text)]) texts))])), w')
    /\ fs w' !! temp_path = None.
Proof.
  intros temp_path Hpdf Hopen Hrd Hpgs Htexts.
  pose proof (extract_from_spec pgs 0 texts Htexts) as Hfrom.
  change (Z.of_nat 0) with 0 in Hfrom.
  pose proof (Forall2_length _ _ _ Htexts) as Hlen.
  unfold extract_text. rewrite Hpdf. cbn [negb].
  returns_with (fun w' => fs w' !! temp_path = None).
  subst temp_path. wp_run. by rewrite Hlen.
Qed.

(** X15. For a document without an information dictionary
    ([reader.metadata] is [None]), [get_metadata] answers with the page
    count, the encryption flag, and the empty string for each of the seven
    metadata fields; the staged upload is removed. *)
Theorem get_metadata_without_info (file : UploadFile) (w : world) (rd : reader)
    (pgs : list page) :
  let temp_path := temp_path_of (uuid_source (drawn w)) file in
  is_pdf (filename file) = true ->
  can_open temp_path = true ->
  PdfReader (content file) = Ok rd ->
  reader_metadata rd = Ok None ->
  reader_pages rd = Ok pgs ->
  exists w',
    get_metadata file w
    = (Return (JSONResponse
                 (JDict [("filename", JStr (filename file));
                         ("total_pages", JInt (Z.of_nat (length pgs)));
                         ("is_encrypted", JBool (is_encrypted rd));
                         ("metadata",
                          JDict [("title", JStr ""); ("author", JStr "");
                                 ("subject", JStr ""); ("creator", JStr "");
                                 ("producer", JStr ""); ("creation_date", JStr "");
                                 ("modification_date", JStr "")])])), w')
    /\ fs w' !! temp_path = None.
Proof.
  intros temp_path Hpdf Hopen Hrd Hmeta Hpgs.
  unfold get_metadata. rewrite Hpdf. cbn [negb].
  returns_with (fun w' => fs w' !! temp_path = None).
  subst temp_path. wp_run. done.
Qed.

(** X16. When the document information is there, each metadata field of
    [get_metadata] is the entry under its key ("/Title", "/Author",
    "/Subject", "/Creator", "/Producer", "/CreationDate", "/ModDate"), and
    the empty string where the key is missing. *)
Theorem get_metadata_with_info (file : UploadFile) (w : world) (rd : reader)
    (info : string -> option string) (pgs : list page) :
  let temp_path := temp_path_of (uuid_source (drawn w)) file in
  let field key := JStr (default "" (info key)) in
  is_pdf (filename file) = true ->
  can_open temp_path = true ->
  PdfReader (content file) = Ok rd ->
  reader_metadata rd = Ok (Some info) ->
  reader_pages rd = Ok pgs ->
  exists w',
    get_metadata file w
    = (Return (JSONResponse
                 (JDict [("filename", JStr (filename file));
                         ("total_pages", JInt (Z.of_nat (length pgs)));
                         ("is_encrypted", JBool (is_encrypted rd));
                         ("metadata",
                          JDict [("title", field "/Title"); ("author", field "/Author");
                                 ("subject", field "/Subject"); ("creator", field "/Creator");
                                 ("producer", field "/Producer");
                                 ("creation_date", field "/CreationDate");
                                 ("modification_date", field "/ModDate")])])), w')
    /\ fs w' !! temp_path = None.
Proof.
  intros temp_path field Hpdf Hopen Hrd Hmeta Hpgs.
  unfold get_metadata. rewrite Hpdf. cbn [negb].
  returns_with (fun w' => fs w' !! temp_path = None).
  subst temp_path field. wp_run. done.
Qed.

(** X17. A document without pages makes [pdf_to_images] fail: the answer
    is a 500, no image is written, nothing is scheduled, and the staged
    upload stays in the incoming zone. *)
Theorem pdf_to_images_no_pages (file : UploadFile) (format : string) (dpi : Z) (w : world)
    (rd : reader) :
  let temp_path := temp_path_of (uuid_source (drawn w)) file in
  is_pdf (filename file) = true ->
  can_open temp_path = true ->
  PdfReader (content file) = Ok rd ->
  reader_pages rd = Ok [] ->
  status_of (pdf_to_images file format dpi w).1 = 500
  /\ fs (pdf_to_images file format dpi w).2 !! temp_path = Some (content file)
  /\ outputs_untouched w (pdf_to_images file format dpi w).2.
Proof.
  intros temp_path Hpdf Hopen Hrd Hpgs.
  apply (wp_post _ (fun o w' =>
           status_of o = 500 /\ fs w' !! temp_path = Some (content file)
           /\ outputs_untouched w w')).
  unfold pdf_to_images. rewrite Hpdf. cbn [negb]. subst temp_path. wp_run.
  split; [done|]. split; [done|]. split; [|done].
  intros name. cbn [fs]. by simplify_map_eq.
Qed.

End Reading.

Lemma extract_text_pages_witness :
  exists w',
    @extract_text Toy.host Toy.codec (mkUpload "c.pdf" Toy.doc_AB) Toy.empty_world
    = (Return (JSONResponse
                 (JDict [("filename", JStr "c.pdf"); ("total_pages", JInt 2);
                         ("pages",
                          JList [JDict [("page", JInt 1); ("content", JStr "A")];
                                 JDict [("page", JInt 2); ("content", JStr "B")]])])), w')
    /\ fs w' !! (UPLOAD_DIR, "0fedcba9-8765-4321-0fed-cba987654321_c.pdf") = None.
Proof.
  apply (@extract_text_pages Toy.host Toy.codec (mkUpload "c.pdf" Toy.doc_AB) Toy.empty_world
           (Toy.mkReader false false [[Byte.x41]; [Byte.x42]]) [[Byte.x41]; [Byte.x42]]
           ["A"; "B"]);
    try reflexivity.
  by repeat constructor.
Defined.

Lemma get_metadata_without_info_witness :
  exists w',
    @get_metadata Toy.host Toy.codec (mkUpload "c.pdf" Toy.doc_AB) Toy.empty_world
    = (Return (JSONResponse
                 (JDict [("filename", JStr "c.pdf"); ("total_pages", JInt 2);
                         ("is_encrypted", JBool false);
                         ("metadata",
                          JDict [("title", JStr ""); ("author", JStr "");
                                 ("subject", JStr ""); ("creator", JStr "");
                                 ("producer", JStr ""); ("creation_date", JStr "");
                                 ("modification_date", JStr "")])])), w')
    /\ fs w' !! (UPLOAD_DIR, "0fedcba9-8765-4321-0fed-cba987654321_c.pdf") = None.
Proof.
  apply (@get_metadata_without_info Toy.host Toy.codec (mkUpload "c.pdf" Toy.doc_AB)
           Toy.empty_world (Toy.mkReader false false [[Byte.x41]; [Byte.x42]])
           [[Byte.x41]; [Byte.x42]]);
    reflexivity.
Defined.

Lemma pdf_to_images_no_pages_witness :
  let run := @pdf_to_images Toy.host Toy.codec (mkUpload "e.pdf" [Byte.x00]) "png" 150
               Toy.empty_world in
  status_of run.1 = 500
  /\ fs run.2 !! (UPLOAD_DIR, "0fedcba9-8765-4321-0fed-cba987654321_e.pdf") = Some [Byte.x00]
  /\ outputs_untouched Toy.empty_world run.2.
Proof.
  apply (@pdf_to_images_no_pages Toy.host Toy.codec (mkUpload "e.pdf" [Byte.x00]) "png" 150
           Toy.empty_world (Toy.mkReader false false []));
    reflexivity.
Defined.

Lemma get_metadata_with_info_witness :
  exists w',
    @get_metadata Toy.host Toy.codec_titled (mkUpload "c.pdf" Toy.doc_AB) Toy.empty_world
    = (Return (JSONResponse
                 (JDict [("filename", JStr "c.pdf"); ("total_pages", JInt 2);
                         ("is_encrypted", JBool false);
                         ("metadata",
                          JDict [("title", JStr "Report"); ("author", JStr "");
                                 ("subject", JStr ""); ("creator", JStr "");
                                 ("producer", JStr ""); ("creation_date", JStr "");
                                 ("modification_date", JStr "")])])), w')
    /\ fs w' !! (UPLOAD_DIR, "0fedcba9-8765-4321-0fed-cba987654321_c.pdf") = None.
Proof.
  apply (@get_metadata_with_info Toy.host Toy.codec_titled (mkUpload "c.pdf" Toy.doc_AB)
           Toy.empty_world (Toy.mkReader false false [[Byte.x41]; [Byte.x42]])
           Toy.titled [[Byte.x41]; [Byte.x42]]);
    reflexivity.
Defined.

(** ** Compressing, watermarking, images *)

Section More_artifacts.

Context `{HH : !Host, CC : !Codec}.

Lemma compress_all_spec (pgs out : list page) :
  Forall2 (fun pg pg' => page_compress pg = Ok pg') pgs out ->
  compress_all pgs = Ok out.
Proof.
  induction 1 as [|pg pg' pgs out Hpg _ IH]; cbn [compress_all]; [done|].
  rewrite Hpg. cbn. by rewrite IH.
Qed.

(** X18. [compress_pdf] on a non-empty upload answers with the document
    written from the compressed pages, and reports in its headers the size
    of the upload and the size of that document, in bytes.  [quality] occurs
    in no hypothesis. *)
Theorem compress_reports_sizes (file : UploadFile) (quality : string) (w : world)
    (rd : reader) (pgs out : list page) (data : bytes) :
  let temp_path := temp_path_of (uuid_source (drawn w)) file in
  let output_filename := "compressed_" ++ PyStr.take 8 (uuid_source (S (drawn w))) ++ ".pdf" in
  let original_size := Z.of_nat (length (content file)) in
  let compressed_size := Z.of_nat (length data) in
  is_pdf (filename file) = true ->
  content file <> [] ->
  can_open temp_path = true ->
  can_open (OUTPUT_DIR, output_filename) = true ->
  PdfReader (content file) = Ok rd ->
  reader_pages rd = Ok pgs ->
  Forall2 (fun pg pg' => page_compress pg = Ok pg') pgs out ->
  PdfWriter_write (mkWriter out None) = Ok data ->
  exists w',
    compress_pdf file quality w
    = (Return (FileResponse_headers (OUTPUT_DIR, output_filename) output_filename
                 "application/pdf"
                 [("X-Original-Size", PyStr.str original_size);
                  ("X-Compressed-Size", PyStr.str compressed_size);
                  ("X-Compression-Ratio", ratio_text compressed_size original_size)]), w')
    /\ fs w' !! (OUTPUT_DIR, output_filename) = Some data.
Proof.
  intros temp_path output_filename original_size compressed_size
    Hpdf Hne Hopen Hout Hrd Hpgs Hcomp Hdata.
  apply compress_all_spec in Hcomp.
  assert ((original_size =? 0) = false) as Hsize.
  { apply Z.eqb_neq. subst original_size. destruct (content file); [done | cbn; lia]. }
  unfold compress_pdf. rewrite Hpdf. cbn [negb].
  returns_with (fun w' => fs w' !! (OUTPUT_DIR, output_filename) = Some data).
  subst temp_path output_filename original_size compressed_size. wp_run.
  rewrite Hsize. wp_run. done.
Qed.

Lemma watermark_all_spec (stamp : page) (pgs out : list page) :
  Forall2 (fun pg pg' => page_merge_page pg stamp = Ok pg') pgs out ->
  watermark_all stamp pgs = Ok out.
Proof.
  induction 1 as [|pg pg' pgs out Hpg _ IH]; cbn [watermark_all]; [done|].
  rewrite Hpg. cbn. by rewrite IH.
Qed.

(** X19. [add_watermark] draws one stamp from [text] and [opacity] and
    merges that same stamp into every page, in order; the artifact is the
    document written from the merged pages.  [position] occurs in no
    hypothesis. *)
Theorem watermark_on_every_page (file : UploadFile) (text : string) (opacity : pyfloat)
    (position : string) (w : world) (rd : reader) (stamp : page) (pgs out : list page)
    (data : bytes) :
  let temp_path := temp_path_of (uuid_source (drawn w)) file in
  let output_filename := "watermarked_" ++ PyStr.take 8 (uuid_source (S (drawn w))) ++ ".pdf" in
  is_pdf (filename file) = true ->
  can_open temp_path = true ->
  can_open (OUTPUT_DIR, output_filename) = true ->
  PdfReader (content file) = Ok rd ->
  watermark_stamp text opacity = Ok stamp ->
  reader_pages rd = Ok pgs ->
  Forall2 (fun pg pg' => page_merge_page pg stamp = Ok pg') pgs out ->
  PdfWriter_write (mkWriter out None) = Ok data ->
  exists w',
    add_watermark file text opacity position w
    = (Return (FileResponse (OUTPUT_DIR, output_filename) output_filename "application/pdf"), w')
    /\ fs w' !! (OUTPUT_DIR, output_filename) = Some data.
Proof.
  intros temp_path output_filename Hpdf Hopen Hout Hrd Hstamp Hpgs Hmerge Hdata.
  apply watermark_all_spec in Hmerge.
  unfold add_watermark. rewrite Hpdf. cbn [negb].
  returns_with (fun w' => fs w' !! (OUTPUT_DIR, output_filename) = Some data).
  subst temp_path output_filename. wp_run. done.
Qed.

(** The loop of [images_to_pdf], when every file has an image extension,
    can be staged and is opened by the image library. *)
Lemma images_loop_total (files : list UploadFile) : forall imgs0 tfs w imgs,
  Forall (fun file =>
            PyStr.lower (path_suffix (filename file)) ∈ valid_extensions) files ->
  Forall (fun p => can_open p = true) (temp_paths (drawn w) files) ->
  open_all files = Ok imgs ->
  wp (for_each files (imgs0, tfs) images_one)
     (fun acc w' =>
        acc = ((imgs0 ++ imgs)%list, (tfs ++ temp_paths (drawn w) files)%list)
        /\ drawn w' = (drawn w + length files)%nat
        /\ (forall p, p ∉ temp_paths (drawn w) files -> fs w' !! p = fs w !! p)
        /\ (forall p, p ∈ temp_paths (drawn w) files -> is_Some (fs w' !! p)))
     (fun _ _ => False) w.
Proof.
  induction files as [|file files IH]; intros imgs0 tfs w imgs Hext Hopen Hall;
    cbn [for_each temp_paths open_all] in *.
  - injection Hall as <-. apply wp_ret.
    split_and!; [by rewrite !app_nil_r | cbn; lia | done |].
    intros p Hp. by apply elem_of_nil in Hp.
  - apply Forall_cons in Hext as [Hext0 Hext]. apply Forall_cons in Hopen as [Hopen0 Hopen].
    destruct (Image_open (content file)) as [img|] eqn:Himg; [|done].
    cbn in Hall.
    apply wp_bind. unfold images_one.
    rewrite bool_decide_eq_true_2 by done. cbn [negb].
    wp_run.
    destruct (String.eqb (picture_mode a) "RGBA") eqn:Hmode.
    + destruct (picture_convert a "RGB") as [img'|] eqn:Hconv; [|done].
      cbn in Hall.
      destruct (open_all files) as [rest|] eqn:Hrest; [|done].
      cbn in Hall. injection Hall as <-.
      wp_run.
      eapply wp_mono; [ | | eapply (IH _ _ _ rest); [done | done | done]]; [|done].
      intros acc w' (-> & Hdr & Hfs & Hsome). cbn in *.
      split_and!; [by rewrite <- !app_assoc | lia | |].
      * intros p Hp. rewrite Hfs by (intros Hin; apply Hp; by right).
        rewrite insert_insert_eq, lookup_insert_ne; [done|].
        intros <-. apply Hp. by left.
      * intros p Hp.
        destruct (decide (p ∈ temp_paths (S (drawn w)) files)) as [Hin|Hnin];
          [by apply Hsome|].
        apply elem_of_cons in Hp as [-> | Hp]; [|done].
        rewrite Hfs by done. by simplify_map_eq.
    + cbn in Hall.
      destruct (open_all files) as [rest|] eqn:Hrest; [|done].
      cbn in Hall. injection Hall as <-.
      wp_run.
      eapply wp_mono; [ | | eapply (IH _ _ _ rest); [done | done | done]]; [|done].
      intros acc w' (-> & Hdr & Hfs & Hsome). cbn in *.
      split_and!; [by rewrite <- !app_assoc | lia | |].
      * intros p Hp. rewrite Hfs by (intros Hin; apply Hp; by right).
        rewrite insert_insert_eq, lookup_insert_ne; [done|].
        intros <-. apply Hp. by left.
      * intros p Hp.
        destruct (decide (p ∈ temp_paths (S (drawn w)) files)) as [Hin|Hnin];
          [by apply Hsome|].
        apply elem_of_cons in Hp as [-> | Hp]; [|done].
        rewrite Hfs by done. by simplify_map_eq.
Qed.

(** X20. [images_to_pdf] on uploads with image extensions that the image
    library opens converts those of mode RGBA to RGB, and answers with the
    document saved from the first image with the others appended in upload
    order; none of the staged files is left. *)
Theorem images_in_upload_order (files : list UploadFile) (w : world)
    (first_image : picture) (other_images : list picture) (data : bytes) :
  let output_filename :=
    "images_to_pdf_" ++ PyStr.take 8 (uuid_source (drawn w + length files)) ++ ".pdf" in
  Forall (fun file =>
            PyStr.lower (path_suffix (filename file)) ∈ valid_extensions) files ->
  Forall (fun p => can_open p = true) (temp_paths (drawn w) files) ->
  NoDup (temp_paths (drawn w) files) ->
  can_open (OUTPUT_DIR, output_filename) = true ->
  open_all files = Ok (first_image :: other_images) ->
  picture_save_pdf first_image other_images = Ok data ->
  exists w',
    images_to_pdf files w
    = (Return (FileResponse (OUTPUT_DIR, output_filename) output_filename "application/pdf"), w')
    /\ fs w' !! (OUTPUT_DIR, output_filename) = Some data
       /\ forall p, p ∈ temp_paths (drawn w) files -> fs w' !! p = None.
Proof.
  intros output_filename Hext Hopen Hnd Hout Hall Hdata.
  unfold images_to_pdf.
  returns_with (fun w' => fs w' !! (OUTPUT_DIR, output_filename) = Some data
                          /\ forall p, p ∈ temp_paths (drawn w) files -> fs w' !! p = None).
  subst output_filename. wp_run.
  eapply wp_mono; [ | | apply (images_loop_total files [] [] w _ Hext Hopen Hall)]; [|done].
  intros acc w1 (-> & Hdr & Hfs & Hsome). cbn beta iota. cbn [app].
  wp_run. rewrite Hdr in *. wp_run.
  eapply wp_mono; [ | | apply unlink_loop_total]; [ | done | done | ].
  - intros _ w2 (Hfs2 & _). cbn [fs with_fs] in Hfs2. wp_run.
    split; [done|]. cbn [fs]. split.
    + rewrite Hfs2. rewrite bool_decide_eq_false_2.
      * by simplify_map_eq.
      * intros Hin. by apply temp_paths_zone in Hin.
    + intros p Hp. rewrite Hfs2. by rewrite bool_decide_eq_true_2.
  - intros p Hp. cbn [fs with_fs]. rewrite insert_insert_eq, lookup_insert_ne.
    + by apply Hsome.
    + intros <-. by apply temp_paths_zone in Hp.
Qed.

End More_artifacts.

Lemma compress_reports_sizes_witness :
  exists w',
    @compress_pdf Toy.host Toy.codec (mkUpload "c.pdf" Toy.doc_AB) "low" Toy.empty_world
    = (Return (FileResponse_headers (OUTPUT_DIR, "compressed_1fedcba9.pdf")
                 "compressed_1fedcba9.pdf" "application/pdf"
                 [("X-Original-Size", "5"); ("X-Compressed-Size", "5");
                  ("X-Compression-Ratio", "0%")]), w')
    /\ fs w' !! (OUTPUT_DIR, "compressed_1fedcba9.pdf") = Some Toy.doc_AB.
Proof.
  apply (@compress_reports_sizes Toy.host Toy.codec (mkUpload "c.pdf" Toy.doc_AB) "low"
           Toy.empty_world (Toy.mkReader false false [[Byte.x41]; [Byte.x42]])
           [[Byte.x41]; [Byte.x42]] [[Byte.x41]; [Byte.x42]] Toy.doc_AB);
    try reflexivity; try discriminate.
  by repeat constructor.
Defined.

Lemma watermark_on_every_page_witness :
  exists w',
    @add_watermark Toy.host Toy.codec (mkUpload "c.pdf" Toy.doc_AB) "X" 3 "center"
      Toy.empty_world
    = (Return (FileResponse (OUTPUT_DIR, "watermarked_1fedcba9.pdf")
                 "watermarked_1fedcba9.pdf" "application/pdf"), w')
    /\ fs w' !! (OUTPUT_DIR, "watermarked_1fedcba9.pdf")
       = Some [Byte.x00; Byte.x41; Byte.x58; Byte.x0a; Byte.x42; Byte.x58; Byte.x0a].
Proof.
  apply (@watermark_on_every_page Toy.host Toy.codec (mkUpload "c.pdf" Toy.doc_AB) "X" 3
           "center" Toy.empty_world (Toy.mkReader false false [[Byte.x41]; [Byte.x42]])
           [Byte.x58] [[Byte.x41]; [Byte.x42]] [[Byte.x41; Byte.x58]; [Byte.x42; Byte.x58]]);
    try reflexivity.
  by repeat constructor.
Defined.

Lemma images_in_upload_order_witness :
  exists w',
    @images_to_pdf Toy.host Toy.codec_titled
      [mkUpload "b.png" [Byte.x42]; mkUpload "a.JPG" [Byte.x41]] Toy.empty_world
    = (Return (FileResponse (OUTPUT_DIR, "images_to_pdf_2fedcba9.pdf")
                 "images_to_pdf_2fedcba9.pdf" "application/pdf"), w')
    /\ fs w' !! (OUTPUT_DIR, "images_to_pdf_2fedcba9.pdf")
       = Some [Byte.x00; Byte.x42; Byte.x52; Byte.x47; Byte.x42; Byte.x0a;
               Byte.x41; Byte.x52; Byte.x47; Byte.x42; Byte.x0a]
       /\ forall p,
            p ∈ @temp_paths Toy.host 0
                  [mkUpload "b.png" [Byte.x42]; mkUpload "a.JPG" [Byte.x41]] ->
            fs w' !! p = None.
Proof.
  apply (@images_in_upload_order Toy.host Toy.codec_titled
           [mkUpload "b.png" [Byte.x42]; mkUpload "a.JPG" [Byte.x41]] Toy.empty_world
           [Byte.x42; Byte.x52; Byte.x47; Byte.x42] [[Byte.x41; Byte.x52; Byte.x47; Byte.x42]]);
    try reflexivity; try (by repeat constructor).
  all: try (repeat (apply Forall_cons; split); try apply Forall_nil; vm_compute;
            by repeat first [apply elem_of_list_here | apply elem_of_list_further]).
  apply NoDup_cons. split; [|apply NoDup_singleton].
  intros Hin. apply list_elem_of_singleton in Hin. discriminate.
Defined.

(** ** The file-type gate *)

Section File_type.

Lemma lower_app s1 s2 : PyStr.lower (s1 ++ s2) = PyStr.lower s1 ++ PyStr.lower s2.
Proof.
  induction s1 as [|c s1 IH]; [done|].
  change (String c s1 ++ s2) with (String c (s1 ++ s2)).
  cbn [PyStr.lower]. rewrite IH. done.
Qed.

Lemma app_length s1 s2 :
  String.length (s1 ++ s2) = (String.length s1 + String.length s2)%nat.
Proof.
  induction s1 as [|c s1 IH]; [done|].
  change (String c s1 ++ s2) with (String c (s1 ++ s2)). cbn. by rewrite IH.
Qed.

Lemma substring_all s : substring 0 (String.length s) s = s.
Proof. induction s as [|c s IH]; cbn; [done | by rewrite IH]. Qed.

Lemma substring_suffix s1 s2 :
  substring (String.length s1) (String.length s2) (s1 ++ s2) = s2.
Proof.
  induction s1 as [|c s1 IH]; [apply substring_all|].
  change (String c s1 ++ s2) with (String c (s1 ++ s2)). cbn. apply IH.
Qed.

(** A string is its first [k] characters followed by the rest. *)
Lemma substring_split s : forall k,
  (k <= String.length s)%nat ->
  s = substring 0 k s ++ substring k (String.length s - k) s.
Proof.
  induction s as [|c s IH]; intros k Hk.
  - destruct k; [done | cbn in Hk; lia].
  - destruct k as [|k].
    + rewrite Nat.sub_0_r, substring_all. done.
    + cbn [substring String.length]. cbn in Hk.
      change (String c ?a ++ ?b) with (String c (a ++ b)).
      f_equal. replace (S (String.length s) - S k)%nat with (String.length s - k)%nat by lia.
      apply IH. lia.
Qed.

Lemma endswith_app s suffix : PyStr.endswith (s ++ suffix) suffix = true.
Proof.
  unfold PyStr.endswith. rewrite app_length. apply andb_true_iff. split.
  - apply Nat.leb_le. lia.
  - replace (String.length s + String.length suffix - String.length suffix)%nat
      with (String.length s) by lia.
    rewrite substring_suffix. apply String.eqb_refl.
Qed.

Lemma endswith_inv s suffix :
  PyStr.endswith s suffix = true -> exists stem, s = stem ++ suffix.
Proof.
  unfold PyStr.endswith. intros [Hle Heq]%andb_true_iff.
  apply Nat.leb_le in Hle. apply String.eqb_eq in Heq.
  remember (String.length suffix) as m eqn:Hm. clear Hm.
  exists (substring 0 (String.length s - m) s). rewrite <- Heq.
  pose proof (substring_split s (String.length s - m) ltac:(lia)) as Hsplit.
  by replace (String.length s - (String.length s - m))%nat with m in Hsplit by lia.
Qed.

(** A lowered string splits where its original does. *)
Lemma lower_app_inv a b : forall s,
  PyStr.lower s = a ++ b ->
  exists s1 s2, s = s1 ++ s2 /\ PyStr.lower s1 = a /\ PyStr.lower s2 = b.
Proof.
  induction a as [|c a IH]; intros s Hs.
  - by exists "", s.
  - destruct s as [|c0 s]; [discriminate|].
    change (String c a ++ b) with (String c (a ++ b)) in Hs.
    cbn [PyStr.lower] in Hs. injection Hs as Hc Hs.
    destruct (IH s Hs) as (s1 & s2 & -> & <- & <-).
    exists (String c0 s1), s2. split; [done|]. split; [|done].
    cbn [PyStr.lower]. by rewrite Hc.
Qed.

(** X21. The file-type check of the handlers looks at the end of the
    file name only and ignores the case of the letters: a name passes
    exactly when it ends in an extension that is ".pdf" once lowered
    (".pdf", ".PDF", ".Pdf", ...). *)
Theorem is_pdf_iff (name : string) :
  is_pdf name = true <->
  exists stem ext, name = stem ++ ext /\ PyStr.lower ext = ".pdf".
Proof.
  unfold is_pdf. split.
  - intros [lowered Hlow]%endswith_inv.
    destruct (lower_app_inv _ _ _ Hlow) as (stem & ext & -> & _ & Hext).
    by exists stem, ext.
  - intros (stem & ext & -> & Hext).
    rewrite lower_app, Hext. apply endswith_app.
Qed.

End File_type.

Lemma is_pdf_iff_witness : is_pdf "Report.final.PDF" = true.
Proof. apply is_pdf_iff. by exists "Report.final", ".PDF". Defined.
